(** * Acquisition control sequencer: [na22ADQ.py]

    A shallow embedding of the oscilloscope acquisition script and the
    properties of its command sequence, run-number resolution, polling loop,
    status publication and waveform export.

    Modelling conventions.
    - Python [float] is IEEE binary64, here Rocq's primitive [float]; Python
      [int] is [Z]; [str] is [string], read as a sequence of Latin-1 code
      points (the session decodes replies with [dpo.encoding = 'latin_1']).
    - The script is one top-level sequence of statements.  Each banner of the
      source ("SCOPE HORIZONTAL SETUP", ...) becomes one monadic function, and
      [main] chains them in source order.
    - Effects are threaded through a state, exception and trace monad: the
      state holds the file store and the positions in the streams the
      environment supplies (instrument replies, wall-clock readings, calendar
      readings); every statement adds the effects it performs to the trace.
    - The only loop, [while True] at line 266, takes fuel; running out of
      fuel is the distinguished result [Hang], never a normal return.
    - The record [Args] holds the command-line values after the script's own
      conversions ([int(args.numEvents)], [float(args.trig)], ...).  A value
      that does not convert aborts the script at lines 65-98, before any of
      the phases modelled from line 108 on.
    - Failures of the instrument session itself (a VISA I/O error) and of
      writes to an already opened file are outside the model; opening a file
      can fail. *)

From Stdlib Require Import ZArith String Ascii List PrimFloat SpecFloat FloatOps
  FloatAxioms DecimalString DecimalPos DecimalZ.
From stdpp Require Import gmap strings.

Set Warnings "-inexact-float".

(** ** Python builtins used by the script *)

Module Py.

(** The exception classes the modelled statements can raise. *)
Inductive exn : Set :=
| FileNotFoundError
| PermissionError
| ValueError
| ZeroDivisionError
| OverflowError.

Definition LF : string := String "010"%char EmptyString.
Definition CR : string := String "013"%char EmptyString.
Definition TAB : string := String "009"%char EmptyString.
Definition DQ : string := String "034"%char EmptyString.

(** The white space that [int] skips around a numeral.  [int] keeps a code
    point below 127 as it is and skips it when it is ASCII white space (9 to
    13, and 32); it turns the other white space of Latin-1, NEL (133) and
    NBSP (160), into a space first.  The separators 28 to 31, white space for
    [str.isspace], are not skipped: [int] raises [ValueError] on them. *)
Definition isspace (c : ascii) : bool :=
  let n := nat_of_ascii c in
  ((9 <=? n)%nat && (n <=? 13)%nat) || (n =? 32)%nat
  || (n =? 133)%nat || (n =? 160)%nat.

Definition digit (c : ascii) : option Z :=
  let n := Z.of_nat (nat_of_ascii c) in
  if ((48 <=? n) && (n <=? 57))%Z then Some (n - 48)%Z else None.

Fixpoint lstrip (s : string) : string :=
  match s with
  | String c s' => if isspace c then lstrip s' else s
  | EmptyString => s
  end.

Fixpoint all_space (s : string) : bool :=
  match s with
  | String c s' => isspace c && all_space s'
  | EmptyString => true
  end.

(** The digits that follow a first digit: more digits, single underscores
    between digits, then nothing but white space. *)
Fixpoint digits (acc : Z) (s : string) : option Z :=
  match s with
  | EmptyString => Some acc
  | String c s' =>
      match digit c with
      | Some d => digits (10 * acc + d) s'
      | None =>
          if Ascii.eqb c "_"
          then match s' with
               | String c' s'' =>
                   match digit c' with
                   | Some d => digits (10 * acc + d) s''
                   | None => None
                   end
               | EmptyString => None
               end
          else if all_space s then Some acc else None
      end
  end.

Definition unsigned (s : string) : option Z :=
  match s with
  | String c s' =>
      match digit c with
      | Some d => digits d s'
      | None => None
      end
  | EmptyString => None
  end.

(** The numeral of a [str] in base 10: white space, an optional sign, the
    digits, white space. *)
Definition numeral (s : string) : option Z :=
  match lstrip s with
  | String c s' =>
      if Ascii.eqb c "-" then Z.opp <$> unsigned s'
      else if Ascii.eqb c "+" then unsigned s'
      else unsigned (String c s')
  | EmptyString => None
  end.

(** The number of digits of a text, and the most that [int] converts:
    [sys.int_max_str_digits], which is 4300 unless the interpreter is told
    otherwise. *)
Fixpoint ndigits (s : string) : Z :=
  match s with
  | String c s' =>
      match digit c with
      | Some _ => 1 + ndigits s'
      | None => ndigits s'
      end
  | EmptyString => 0
  end.

Definition max_str_digits : Z := 4300.

(** [int(s)] for a [str] in base 10; [None] stands for [ValueError], which
    [int] raises both on a text that is no numeral and on a numeral of more
    than [max_str_digits] digits (in a numeral every digit of the text
    counts, leading zeros included). *)
Definition int (s : string) : option Z :=
  if (max_str_digits <? ndigits s)%Z then None else numeral s.

(** [str(n)] for an [int]: also what ['{}'.format(n)] and ['%s' % n] give.
    The integers of the script are results of [int], so they have at most
    [max_str_digits] digits and [str] converts them. *)
Definition str_int (n : Z) : string := NilZero.string_of_int (Z.to_int n).

(** [float(n)] for an [int]: the nearest binary64, ties to even; [None]
    stands for [OverflowError]. *)
Definition float_of_int (n : Z) : option float :=
  match binary_normalize prec emax n 0 false with
  | S754_infinity _ => None
  | sf => Some (SF2Prim sf)
  end.

(** [a / b] on floats; [None] stands for [ZeroDivisionError]. *)
Definition truediv (a b : float) : option float :=
  if PrimFloat.eqb b 0%float then None else Some (PrimFloat.div a b).

(** Truth value of an [int]. *)
Definition truthy (n : Z) : bool := negb (n =? 0)%Z.

End Py.

(** Renderings that depend on the interpreter and on the VISA binding. *)
Class Runtime : Type := {
  (** [str(x)] of a float: ['{}'.format(x)] and [print(x)]. *)
  str_float : float -> string;
  (** ['%.Nf' % x]; ['%f'] is precision 6. *)
  pct_f : nat -> float -> string;
  (** [str] of what [dpo.write(cmd)] returns. *)
  str_written : string -> string
}.

(** ** Effects *)

Inductive fmode : Set :=
| ModeR      (* open(path) *)
| ModeW      (* open(path, "w") *)
| ModeAPlus. (* open(path, "a+") *)

Inductive event : Type :=
| DpoOpen (address : string)                 (* rm.open_resource(address) *)
| DpoWrite (cmd : string)                    (* dpo.write(cmd), and the first half of dpo.query(cmd) *)
| DpoRead (reply : string)                   (* the second half of dpo.query: the reply read *)
| DpoClose                                   (* dpo.close() *)
| Stdout (text : string)                     (* print(...): the text before the final newline *)
| TimeSleep (secs : float)                   (* time.sleep(secs) *)
| TimeTime (t : float)                       (* time.time(), with the value read *)
| DatetimeNow (d : string)                   (* datetime.datetime.now(), with the value read *)
| FileOpen (path : string) (mode : fmode)    (* open(path, mode), also when it raises *)
| FileRead (path : string)                   (* f.read() *)
| FileWrite (path : string) (data : string)  (* f.write(data) *)
| FileClose (path : string).                 (* f.close(), or the end of a with block *)

(** A file of the store: its text, or an entry the process may not open. *)
Inductive fnode : Type :=
| Denied
| Data (text : string).

(** What the environment supplies: the n-th line the instrument returns to a
    read, the n-th reading of [time.time()], and the n-th reading of
    [datetime.datetime.now()] in its [str] rendering. *)
Record World : Type := {
  dpo_reply : nat -> string;
  time_time : nat -> float;
  datetime_now : nat -> string
}.

Record State : Type := mkState {
  files : gmap string fnode;
  n_read : nat;
  n_time : nat;
  n_date : nat
}.

Inductive result (A : Type) : Type :=
| Ret (a : A)
| Raise (e : Py.exn)
| Hang.
Arguments Ret {A} a.
Arguments Raise {A} e.
Arguments Hang {A}.

(** What running a statement from a state gives: how it ended, the state it
    left, and the effects it performed, oldest first. *)
Record run (A : Type) : Type := Run {
  res : result A;
  final : State;
  trace : list event
}.
Arguments Run {A} res final trace.
Arguments res {A} r.
Arguments final {A} r.
Arguments trace {A} r.

Definition M (A : Type) : Type := State -> run A.

Definition ret {A} (a : A) : M A := fun s => Run (Ret a) s [].

Definition bind {A B} (m : M A) (k : A -> M B) : M B :=
  fun s =>
    match m s with
    | Run (Ret a) s1 t1 =>
        match k a s1 with
        | Run r s2 t2 => Run r s2 (t1 ++ t2)
        end
    | Run (Raise e) s1 t1 => Run (Raise e) s1 t1
    | Run Hang s1 t1 => Run Hang s1 t1
    end.

Definition raise {A} (e : Py.exn) : M A := fun s => Run (Raise e) s [].

Definition hang {A} : M A := fun s => Run Hang s [].

Declare Scope script_scope.
Delimit Scope script_scope with script.
Notation "'do' x <- c ;; k" := (bind c (fun x => k))
  (at level 10, x name, c at level 99, k at level 200) : script_scope.
Open Scope script_scope.

Definition emit (e : event) : M unit := fun s => Run (Ret tt) s [e].

Definition initial (fs : gmap string fnode) : State := mkState fs 0 0 0.

(** ** Observations of a trace *)

(** The instrument commands, in order: the text of each write. *)
Definition command_of (e : event) : list string :=
  match e with
  | DpoWrite cmd => [cmd]
  | _ => []
  end.

Definition commands (t : list event) : list string := flat_map command_of t.

(** The replies read from the instrument. *)
Definition reply_of (e : event) : list string :=
  match e with
  | DpoRead r => [r]
  | _ => []
  end.

Definition replies (t : list event) : list string := flat_map reply_of t.

(** The lines printed. *)
Definition text_of (e : event) : list string :=
  match e with
  | Stdout text => [text]
  | _ => []
  end.

Definition printed (t : list event) : list string := flat_map text_of t.

(** The events of a trace that touch the file at [path]. *)
Definition touches (path : string) (e : event) : bool :=
  match e with
  | FileOpen p _ | FileRead p | FileWrite p _ | FileClose p => String.eqb p path
  | _ => false
  end.

Definition file_events (path : string) (t : list event) : list event :=
  flat_map (fun e => if touches path e then [e] else []) t.

(** ** Command-line values, after the conversions of lines 65-98 *)

Record Args : Type := {
  numEvents : Z;              (* int(args.numEvents) *)
  runNumberParam : Z;         (* int(args.runNumber), default -1 *)
  sampleRate : float;         (* float(args.sampleRate) *)
  horizontalWindow : string;  (* args.horizontalWindow, never converted *)
  trigCh_arg : string;        (* str(args.trigCh) *)
  trigLevel : float;          (* float(args.trig) *)
  triggerSlope : string;      (* args.trigSlope *)
  vScale_ch1 : float;         (* float(args.vScale1) *)
  vPos_ch1 : float;           (* float(args.vPos1) *)
  timeoffset_ns : float;      (* float(args.timeoffset) *)
  savewaves : Z;              (* int(args.save) *)
  timeout : float             (* float(args.timeout) *)
}.

(** The variables of the script that later statements read.  [end_early] is
    set on the deadline path of the loop (line 277) and stays [false] when the
    loop leaves on completion (line 271). *)
Record Globals : Type := {
  runNumber : Z;
  start : float;
  end_ : float;
  end_early : bool;
  duration : float;
  trigRate : float
}.

(** Line 68: [if trigCh != "AUX": trigCh = 'CHANnel'+trigCh]. *)
Definition trigCh (a : Args) : string :=
  if String.eqb (trigCh_arg a) "AUX" then trigCh_arg a
  else "CHANnel" +:+ trigCh_arg a.

(** Line 71. *)
Definition timeoffset (a : Args) : float :=
  PrimFloat.mul (timeoffset_ns a) 1e-9%float.

(** Line 81. *)
Definition samplingrate (a : Args) : float :=
  PrimFloat.mul (sampleRate a) 1e+9%float.

(** Line 83: [hScale = 1e-6]; line 80, which read the horizontal window, is
    commented out in the source. *)
Definition hScale : float := 1e-6%float.

(** Line 86. *)
Definition numPoints (a : Args) : float := PrimFloat.mul (samplingrate a) hScale.

(** Line 110: the literal ['F:\OSCDAta\runNumber.txt'] is not a raw string,
    so its [\r] is a carriage return; [\O] is no escape and stays as written. *)
Definition RunNumberFile : string := "F:\OSCDAta" +:+ Py.CR +:+ "unNumber.txt".

(** Lines 133-134: [\O], [\A] and [\L] are no escapes. *)
Definition log_path : string := "F:\OSCDAta\Acquisition\Logbook.txt".
Definition run_log_path : string := "F:\OSCDAta\AcquisitionRunLog.txt".

(** Line 297: ['C:\\LCE_BTL_Module\\']. *)
Definition output_path : string := "C:\LCE_BTL_Module\".

Definition stop_command : string := ":STOP;*OPC?".

Section Script.

Context {RT : Runtime} (w : World).

Local Abbreviation LF := Py.LF.

(** *** Primitive effects *)

Definition dpo_write (cmd : string) : M unit := emit (DpoWrite cmd).

Definition dpo_read : M string :=
  fun s =>
    let '(mkState fs nr nt nd) := s in
    let r := dpo_reply w nr in
    Run (Ret r) (mkState fs (S nr) nt nd) [DpoRead r].

(** [dpo.query(cmd)]: a write followed by a read of the reply. *)
Definition dpo_query (cmd : string) : M string :=
  do _ <- dpo_write cmd ;; dpo_read.

Definition py_print (text : string) : M unit := emit (Stdout text).

Definition sleep (secs : float) : M unit := emit (TimeSleep secs).

Definition time_now : M float :=
  fun s =>
    let '(mkState fs nr nt nd) := s in
    let t := time_time w nt in
    Run (Ret t) (mkState fs nr (S nt) nd) [TimeTime t].

Definition date_now : M string :=
  fun s =>
    let '(mkState fs nr nt nd) := s in
    let d := datetime_now w nd in
    Run (Ret d) (mkState fs nr nt (S nd)) [DatetimeNow d].

(** [open(path, mode)].  ["w"] creates or truncates, ["a+"] creates or
    keeps, the default mode needs the file to exist. *)
Definition open_ (path : string) (mode : fmode) : M unit :=
  fun s =>
    let '(mkState fs nr nt nd) := s in
    let created := mkState (<[path := Data EmptyString]> fs) nr nt nd in
    match fs !! path, mode with
    | Some Denied, _ => Run (Raise Py.PermissionError) s [FileOpen path mode]
    | None, ModeR => Run (Raise Py.FileNotFoundError) s [FileOpen path mode]
    | Some (Data _), ModeR => Run (Ret tt) s [FileOpen path mode]
    | _, ModeW => Run (Ret tt) created [FileOpen path mode]
    | None, ModeAPlus => Run (Ret tt) created [FileOpen path mode]
    | Some (Data _), ModeAPlus => Run (Ret tt) s [FileOpen path mode]
    end.

Definition contents (fs : gmap string fnode) (path : string) : string :=
  match fs !! path with
  | Some (Data text) => text
  | _ => EmptyString
  end.

Definition file_read (path : string) : M string :=
  fun s => Run (Ret (contents (files s) path)) s [FileRead path].

(** [f.write(data)] on the file opened at [path]: the text grows at its
    end. *)
Definition append (data : string) (node : option fnode) : option fnode :=
  match node with
  | Some (Data text) => Some (Data (text +:+ data))
  | _ => Some (Data data)
  end.

Definition file_write (path data : string) : M unit :=
  fun s =>
    let '(mkState fs nr nt nd) := s in
    Run (Ret tt) (mkState (partial_alter (append data) path fs) nr nt nd)
        [FileWrite path data].

Definition file_close (path : string) : M unit := emit (FileClose path).

(** *** SEARCH/CONNECT, lines 25-34 *)
Definition search_connect : M unit :=
  do _ <- emit (DpoOpen "TCPIP::192.168.0.182::INSTR") ;;
  do idn <- dpo_query "*idn?" ;;
  py_print idn.

(** *** Lines 65-103: what the argument handling prints and reads; the
    second reading of the calendar (line 103) is the run's [date]. *)
Definition configure_instrument (a : Args) : M string :=
  do _ <- py_print ("timeoffset is  " +:+ str_float (timeoffset a)) ;;
  do _ <- date_now ;;
  do _ <- py_print (Py.str_int (savewaves a)) ;;
  do _ <- py_print ("timeout is  " +:+ str_float (timeout a)) ;;
  do _ <- py_print ("numPoints is =  " +:+ str_float (numPoints a)) ;;
  do _ <- py_print ("samplerate is =  " +:+ str_float (samplingrate a)) ;;
  date_now.

(** *** CONFIGURE RUN NUMBER, lines 108-114 *)
Definition configure_run_number (a : Args) : M Z :=
  if (runNumberParam a =? -1)%Z
  then
    do _ <- open_ RunNumberFile ModeR ;;
    do text <- file_read RunNumberFile ;;
    do _ <- file_close RunNumberFile ;;
    match Py.int text with
    | Some n => ret n
    | None => raise Py.ValueError
    end
  else ret (runNumberParam a).

(** Lines 116-119. *)
Definition starting_run (runNumber : Z) (date : string) : M unit :=
  do _ <- py_print ("######## Starting RUN " +:+ Py.str_int runNumber
                    +:+ " ########" +:+ LF) ;;
  do _ <- py_print ("---------------------" +:+ LF) ;;
  do _ <- py_print date ;;
  py_print ("---------------------" +:+ LF).

(** *** SET THE OUTPUT FOLDER, lines 137-142: the logbook header *)
Definition set_the_output_folder (a : Args) (runNumber : Z) (date : string)
  : M unit :=
  do _ <- open_ log_path ModeAPlus ;;
  do _ <- file_write log_path
            (LF +:+ LF +:+ "#### SCOPE LOGBOOK -- RUN NUMBER "
             +:+ Py.str_int runNumber +:+ " ####" +:+ LF +:+ LF) ;;
  do _ <- file_write log_path ("Date:" +:+ Py.TAB +:+ date +:+ LF) ;;
  do _ <- file_write log_path
            ("---------------------------------------------------------" +:+ LF) ;;
  do _ <- file_write log_path
            ("Number of events per file: " +:+ Py.str_int (numEvents a)
             +:+ " " +:+ LF) ;;
  file_write log_path
    ("---------------------------------------------------------" +:+ LF +:+ LF).

(** *** SCOPE HORIZONTAL SETUP, lines 148-170 *)
Definition scope_horizontal_setup (a : Args) : M unit :=
  do _ <- dpo_write stop_command ;;
  do _ <- dpo_write (":TIMebase:RANGe " +:+ str_float hScale) ;;
  do _ <- dpo_write ":TIMebase:REFerence:PERCent 70" ;;
  do _ <- dpo_write ":ACQuire:SRATe:ANALog:AUTO ON" ;;
  do srate <- dpo_query ":ACQuire:SRATe:ANALog?" ;;
  do _ <- py_print (":ACQuire:SRATe:ANALog  " +:+ srate) ;;
  do _ <- dpo_write (":TIMebase:POSition " +:+ str_float (timeoffset a)) ;;
  do _ <- dpo_write ":ACQuire:MODE SEGMented" ;;
  do _ <- dpo_write (":ACQuire:SEGMented:COUNt " +:+ Py.str_int (numEvents a)) ;;
  do _ <- dpo_write ":ACQuire:POINts:ANALog AUTO" ;;
  do _ <- dpo_write ":ACQuire:INTerpolate 0" ;;
  do _ <- py_print "# SCOPE HORIZONTAL SETUP #" ;;
  do _ <- py_print ("Horizontal scale set to " +:+ str_float hScale
                    +:+ " s for range" +:+ LF) ;;
  do _ <- py_print ("Horizontal offset set to " +:+ str_float (timeoffset a)
                    +:+ " s " +:+ LF) ;;
  do _ <- file_write log_path ("HORIZONTAL SETUP" +:+ LF) ;;
  do _ <- file_write log_path
            ("Horizontal scale set to " +:+ str_float hScale
             +:+ " s for range" +:+ LF) ;;
  file_write log_path
    ("Horizontal offset set to " +:+ str_float (timeoffset a) +:+ " s" +:+ LF).

(** *** SCOPE CHANNELS BANDWIDTH, lines 185-187 *)
Definition scope_channels_bandwidth : M unit :=
  do _ <- dpo_write ":ACQuire:BANDwidth 5.E10" ;;
  do _ <- py_print "Bandwidth set to 500 MHz" ;;
  file_write log_path ("Bandwidth set to 500 MHz " +:+ LF).

(** *** SCOPE VERTICAL SETUP, lines 190-220 *)
Definition scope_vertical_setup (a : Args) : M unit :=
  do _ <- dpo_write ("CHANnel1:SCALe " +:+ str_float (vScale_ch1 a)) ;;
  do _ <- dpo_write ("CHANnel1:OFFSet " +:+ str_float (vPos_ch1 a)) ;;
  do _ <- py_print "# VERTICAL SETUP #" ;;
  do _ <- py_print ("- CH1: vertical scale set to " +:+ str_float (vScale_ch1 a)
                    +:+ " V for division" +:+ LF) ;;
  do _ <- py_print ("- CH1: vertical offset set to " +:+ str_float (vPos_ch1 a)
                    +:+ " V " +:+ LF) ;;
  do _ <- file_write log_path ("VERTICAL SETUP" +:+ LF) ;;
  do _ <- file_write log_path
            ("- CH1: vertical scale set to " +:+ str_float (vScale_ch1 a)
             +:+ " V for division" +:+ LF) ;;
  file_write log_path
    ("- CH1: vertical offset set to " +:+ str_float (vPos_ch1 a)
     +:+ " V " +:+ LF).

(** *** TRIGGER SETUP, lines 227-242 *)
Definition trigger_setup (a : Args) : M unit :=
  let trigprint := pct_f 3 (trigLevel a) in
  do _ <- dpo_write ("TRIGger:MODE EDGE; :TRIGger:EDGE:SOURce " +:+ trigCh a
                     +:+ "; :TRIGger:LEVel " +:+ trigCh a +:+ ", "
                     +:+ pct_f 6 (trigLevel a)) ;;
  do _ <- dpo_write (":TRIGger:EDGE:SLOPe " +:+ triggerSlope a +:+ ";") ;;
  do _ <- py_print "# TRIGGER SETUP #" ;;
  do _ <- py_print ("Trigger Channel set to " +:+ trigCh a +:+ LF) ;;
  do _ <- py_print ("Trigger scale set to " +:+ trigprint +:+ " V" +:+ LF) ;;
  do _ <- py_print ("Trigger on " +:+ triggerSlope a +:+ " edge "
                    +:+ LF +:+ LF +:+ LF +:+ LF) ;;
  do _ <- file_write log_path ("TRIGGER SETUP" +:+ LF) ;;
  do _ <- file_write log_path ("- Trigger Channel set to " +:+ trigCh a +:+ LF) ;;
  do _ <- file_write log_path
            ("- Trigger scale set to " +:+ trigprint +:+ " V" +:+ LF) ;;
  do _ <- file_write log_path
            ("- Trigger on " +:+ triggerSlope a +:+ " edge "
             +:+ LF +:+ LF +:+ LF +:+ LF) ;;
  do _ <- file_close log_path ;;
  py_print ("Horizontal, vertical, and trigger settings configured." +:+ LF).

(** The configuration phase: lines 145-242. *)
Definition configure (a : Args) : M unit :=
  do _ <- scope_horizontal_setup a ;;
  do _ <- scope_channels_bandwidth ;;
  do _ <- scope_vertical_setup a ;;
  trigger_setup a.

(** *** Status publication *)

(** Lines 245-251: no newline follows the token (line 250 is commented out). *)
Definition status_busy : M unit :=
  do _ <- open_ run_log_path ModeW ;;
  do _ <- file_write run_log_path "busy" ;;
  file_close run_log_path.

(** Lines 285-289. *)
Definition status_writing : M unit :=
  do _ <- open_ run_log_path ModeW ;;
  do _ <- file_write run_log_path "writing" ;;
  do _ <- file_write run_log_path LF ;;
  file_close run_log_path.

(** Lines 329-333. *)
Definition status_ready : M unit :=
  do _ <- open_ run_log_path ModeW ;;
  do _ <- file_write run_log_path "ready" ;;
  do _ <- file_write run_log_path LF ;;
  file_close run_log_path.

(** *** DATA TRANSFERRING, lines 257-281 *)

(** The loop of lines 266-279; the result is [end_early].  The clock is
    read only when [timeout > 0] holds ([and] does not evaluate its second
    operand otherwise). *)
Fixpoint poll (fuel : nat) (timeout start : float) : M bool :=
  match fuel with
  | O => hang
  | S fuel' =>
      do reply <- dpo_query ":ADER?" ;;
      match Py.int reply with
      | None => raise Py.ValueError
      | Some n =>
          if (n =? 1)%Z
          then do _ <- py_print "Acquisition complete" ;; ret false
          else
            do _ <- sleep 0.1%float ;;
            if PrimFloat.ltb 0%float timeout
            then
              do now <- time_now ;;
              if PrimFloat.ltb timeout (PrimFloat.sub now start)
              then do _ <- dpo_write stop_command ;; ret true
              else poll fuel' timeout start
            else poll fuel' timeout start
      end
  end.

Definition data_transferring (fuel : nat) (a : Args) : M (float * float * bool) :=
  do _ <- sleep 2%float ;;
  do _ <- dpo_write ":CDISplay" ;;
  do _ <- py_print (str_written ":CDISplay") ;;
  do _ <- dpo_write "*CLS;:SINGle" ;;
  do start <- time_now ;;
  do end_early <- poll fuel (timeout a) start ;;
  do end_ <- time_now ;;
  ret (start, end_, end_early).

(** Lines 291-295: the rate is computed on both paths and printed on one. *)
Definition trigger_rate (a : Args) (start end_ : float) (end_early : bool)
  : M (float * float) :=
  let duration := PrimFloat.sub end_ start in
  match Py.float_of_int (numEvents a) with
  | None => raise Py.OverflowError
  | Some n =>
      match Py.truediv n duration with
      | None => raise Py.ZeroDivisionError
      | Some trigRate =>
          do _ <- (if negb end_early
                   then py_print (LF +:+ "Run duration: " +:+ pct_f 2 duration
                                  +:+ " s. Trigger rate: " +:+ pct_f 2 trigRate
                                  +:+ " Hz" +:+ LF)
                   else py_print (LF +:+ "Run duration: " +:+ pct_f 2 duration
                                  +:+ " s. Trigger rate: unknown" +:+ LF)) ;;
          ret (duration, trigRate)
      end
  end.

(** Line 304: the save command for channel 1. *)
Definition save_command (runNumber : Z) : string :=
  ":DISK:SAVE:WAVeform CHANnel1 ," +:+ Py.DQ +:+ output_path
  +:+ "Wavenewscope_CH1_run" +:+ Py.str_int runNumber +:+ Py.DQ +:+ ",BIN,ON".

(** Lines 296-309. *)
Definition save_waveforms (a : Args) (runNumber : Z) : M unit :=
  if Py.truthy (savewaves a)
  then
    do _ <- dpo_write ":DISK:SEGMented ALL" ;;
    do opc <- dpo_query "*OPC?" ;;
    do _ <- py_print opc ;;
    do _ <- py_print "Ready to save all segments" ;;
    do _ <- sleep 0.5%float ;;
    do _ <- dpo_write (save_command runNumber) ;;
    do opc' <- dpo_query "*OPC?" ;;
    do _ <- py_print opc' ;;
    do _ <- py_print "Saved Channel 1 waveform" ;;
    sleep 1%float
  else ret tt.

(** Lines 285-336, what follows the loop. *)
Definition finish (a : Args) (runNumber : Z) (start end_ : float)
           (end_early : bool) : M Globals :=
  do _ <- status_writing ;;
  do dr <- trigger_rate a start end_ end_early ;;
  do _ <- save_waveforms a runNumber ;;
  do _ <- status_ready ;;
  do _ <- emit DpoClose ;;
  ret {| runNumber := runNumber; start := start; end_ := end_;
         end_early := end_early; duration := fst dr; trigRate := snd dr |}.

(** The whole script. *)
Definition main (fuel : nat) (a : Args) : M Globals :=
  do _ <- search_connect ;;
  do date <- configure_instrument a ;;
  do runNumber <- configure_run_number a ;;
  do _ <- starting_run runNumber date ;;
  do _ <- set_the_output_folder a runNumber date ;;
  do _ <- configure a ;;
  do _ <- status_busy ;;
  do se <- data_transferring fuel a ;;
  finish a runNumber (fst (fst se)) (snd (fst se)) (snd se).

End Script.

(** The same arguments with another horizontal window. *)
Definition with_horizontalWindow (hw : string) (a : Args) : Args := {|
  numEvents := numEvents a;
  runNumberParam := runNumberParam a;
  sampleRate := sampleRate a;
  horizontalWindow := hw;
  trigCh_arg := trigCh_arg a;
  trigLevel := trigLevel a;
  triggerSlope := triggerSlope a;
  vScale_ch1 := vScale_ch1 a;
  vPos_ch1 := vPos_ch1 a;
  timeoffset_ns := timeoffset_ns a;
  savewaves := savewaves a;
  timeout := timeout a
|}.

(** The same arguments with another timeout. *)
Definition with_timeout (t : float) (a : Args) : Args := {|
  numEvents := numEvents a;
  runNumberParam := runNumberParam a;
  sampleRate := sampleRate a;
  horizontalWindow := horizontalWindow a;
  trigCh_arg := trigCh_arg a;
  trigLevel := trigLevel a;
  triggerSlope := triggerSlope a;
  vScale_ch1 := vScale_ch1 a;
  vPos_ch1 := vPos_ch1 a;
  timeoffset_ns := timeoffset_ns a;
  savewaves := savewaves a;
  timeout := t
|}.

(** The same arguments with another run-number override. *)
Definition with_runNumber (n : Z) (a : Args) : Args := {|
  numEvents := numEvents a;
  runNumberParam := n;
  sampleRate := sampleRate a;
  horizontalWindow := horizontalWindow a;
  trigCh_arg := trigCh_arg a;
  trigLevel := trigLevel a;
  triggerSlope := triggerSlope a;
  vScale_ch1 := vScale_ch1 a;
  vPos_ch1 := vPos_ch1 a;
  timeoffset_ns := timeoffset_ns a;
  savewaves := savewaves a;
  timeout := timeout a
|}.

(** The effect that follows each halt or stop command in a trace. *)
Fixpoint after_stop (t : list event) : list (option event) :=
  match t with
  | [] => []
  | DpoWrite cmd :: t' =>
      if String.eqb cmd stop_command then head t' :: after_stop t'
      else after_stop t'
  | _ :: t' => after_stop t'
  end.

(** ** Fixtures: a simulated instrument and sample arguments *)

Module Fixture.

(** A rendering that keeps only what the proofs below read: the sign of a
    float and whether it is zero are not looked at, every float prints as
    the same token. *)
Definition plain : Runtime := {|
  str_float := fun _ => "<float>";
  pct_f := fun _ _ => "<float>";
  str_written := fun _ => "<written>"
|}.

(** The instrument identifies itself, answers the sample-rate query, then
    reports completion on the fourth poll of the completion register; the
    clock advances by one second per reading. *)
Definition completes_after_3 : World := {|
  dpo_reply := fun n =>
    match n with
    | 0 => "KEYSIGHT"
    | 1 => "4.0E+09"
    | 2 | 3 | 4 => "+0"
    | _ => "+1"
    end;
  time_time := fun n => default 0%float (Py.float_of_int (1000 + Z.of_nat n));
  datetime_now := fun _ => "2021-06-01 12:00:00"
|}.

(** The default values of the argument parser (lines 39-62), with the three
    required arguments of the scenario of the design notes. *)
Definition defaults : Args := {|
  numEvents := 1000;
  runNumberParam := -1;
  sampleRate := 4%float;
  horizontalWindow := "200";
  trigCh_arg := "1";
  trigLevel := (-0.0023)%float;
  triggerSlope := "NEGative";
  vScale_ch1 := 0.005%float;
  vPos_ch1 := 0.016%float;
  timeoffset_ns := (-53)%float;
  savewaves := 1;
  timeout := (-1)%float
|}.

Definition counter_42 : gmap string fnode := {[ RunNumberFile := Data "42" ]}.

(** An instrument that never reports completion; same clock. *)
Definition never_completes : World := {|
  dpo_reply := fun n =>
    match n with
    | 0 => "KEYSIGHT"
    | 1 => "4.0E+09"
    | _ => "+0"
    end;
  time_time := fun n => default 0%float (Py.float_of_int (1000 + Z.of_nat n));
  datetime_now := fun _ => "2021-06-01 12:00:00"
|}.

(** An instrument that reports completion on the first poll, under a clock
    that gives the same reading twice in a row (a coarse system clock, or a
    clock stepped back between the two readings). *)
Definition instant : World := {|
  dpo_reply := fun n =>
    match n with
    | 0 => "KEYSIGHT"
    | 1 => "4.0E+09"
    | _ => "+1"
    end;
  time_time := fun _ => 1000%float;
  datetime_now := fun _ => "2021-06-01 12:00:00"
|}.

End Fixture.

(** The events that can change the file at [path]: a write, or an open in a
    mode that creates or truncates. *)
Definition writes_to (path : string) (e : event) : bool :=
  match e with
  | FileWrite p _ | FileOpen p ModeW | FileOpen p ModeAPlus => String.eqb p path
  | _ => false
  end.

(** The exceptions by which reading the run counter fails: the file is
    missing, it may not be opened, or its text is no integer. *)
Definition CounterUnavailable (e : Py.exn) : Prop :=
  e = Py.FileNotFoundError \/ e = Py.PermissionError \/ e = Py.ValueError.

(** ** Judgments on statements *)

(** Safety: every effect the statement performs satisfies [P], however the
    statement ends. *)
Definition always (P : event -> Prop) {A} (m : M A) : Prop :=
  forall s, Forall P (trace (m s)).

(** What the statement shows through the observation [f] of single events
    when it returns normally. *)
Definition shows {X} (f : event -> list X) {A} (m : M A) (xs : list X) : Prop :=
  forall s,
    match res (m s) with
    | Ret _ => flat_map f (trace (m s)) = xs
    | _ => True
    end.

(** Normal return from every state whose file store satisfies [I], which the
    statement maintains. *)
Definition total (I : gmap string fnode -> Prop) {A} (m : M A) : Prop :=
  forall s, I (files s) ->
    (exists a, res (m s) = Ret a) /\ I (files (final (m s))).

(** The statement leaves the file at [path] as it is. *)
Definition keeps (path : string) {A} (m : M A) : Prop :=
  forall s, files (final (m s)) !! path = files s !! path.

(** A path the process may open for writing. *)
Definition openable (path : string) (fs : gmap string fnode) : Prop :=
  fs !! path <> Some Denied.

(** ** Further observations and judgments *)

(** The text a trace writes to the file at [path], in order. *)
Fixpoint written (path : string) (t : list event) : string :=
  match t with
  | [] => EmptyString
  | FileWrite p data :: t' =>
      if String.eqb p path then data +:+ written path t' else written path t'
  | _ :: t' => written path t'
  end.

(** A trace without what it prints. *)
Definition silent_of (e : event) : list event :=
  match e with
  | Stdout _ => []
  | _ => [e]
  end.

Definition but_stdout (t : list event) : list event := flat_map silent_of t.

(** The milestones of a run: the logbook is opened and closed, the status
    tokens are written, the acquisition is armed (line 263), the export is
    prepared (line 299), the session is closed. *)
Definition milestone (e : event) : list event :=
  match e with
  | FileOpen p _ | FileClose p => if String.eqb p log_path then [e] else []
  | FileWrite p _ => if String.eqb p run_log_path then [e] else []
  | DpoWrite cmd =>
      if String.eqb cmd "*CLS;:SINGle" || String.eqb cmd ":DISK:SEGMented ALL"
      then [e] else []
  | DpoClose => [e]
  | _ => []
  end.

Definition milestones (t : list event) : list event := flat_map milestone t.

(** The milestones of a run that returns normally. *)
Definition all_milestones (a : Args) : list event :=
  [ FileOpen log_path ModeAPlus; FileClose log_path;
    FileWrite run_log_path "busy";
    DpoWrite "*CLS;:SINGle";
    FileWrite run_log_path "writing"; FileWrite run_log_path Py.LF ]
  ++ (if Py.truthy (savewaves a) then [DpoWrite ":DISK:SEGMented ALL"] else [])
  ++ [ FileWrite run_log_path "ready"; FileWrite run_log_path Py.LF; DpoClose ].

(** The statement shows [xs] through [f] when it returns normally, and an
    initial part of [xs] when it does not. *)
Definition unfolds {X} (f : event -> list X) {A} (m : M A) (xs : list X) : Prop :=
  forall s,
    match res (m s) with
    | Ret _ => flat_map f (trace (m s)) = xs
    | _ => exists rest, flat_map f (trace (m s)) ++ rest = xs
    end.

(** The statement raises no exception of the class [E]. *)
Definition never_raises (E : Py.exn -> Prop) {A} (m : M A) : Prop :=
  forall s e, res (m s) = Raise e -> ~ E e.

(** The statement only adds to the end of the file at [path]: what the file
    holds afterwards is what it held before, followed by what the statement
    wrote to it. *)
Definition appends (path : string) {A} (m : M A) : Prop :=
  forall s,
    contents (files (final (m s))) path =
    contents (files s) path +:+ written path (trace (m s)).

(** Every effect of the statement satisfies [P] unless it returns normally. *)
Definition unless_returned (P : event -> Prop) {A} (m : M A) : Prop :=
  forall s, (forall a, res (m s) <> Ret a) -> Forall P (trace (m s)).

(** The statement ends by itself: it returns or raises. *)
Definition halts {A} (m : M A) : Prop := forall s, res (m s) <> Hang.

(** Where the file at [path] may not be opened, the statement ends with an
    exception, and every effect it performs up to there satisfies [P]. *)
Definition blocked (path : string) (P : event -> Prop) {A} (m : M A) : Prop :=
  forall s, files s !! path = Some Denied ->
    (exists e, res (m s) = Raise e) /\ Forall P (trace (m s)).

(** The exceptions of line 292: of [float(numEvents)] and of the division. *)
Definition arithmetic (e : Py.exn) : Prop :=
  e = Py.ZeroDivisionError \/ e = Py.OverflowError.

(** The same arguments with another sample rate. *)
Definition with_sampleRate (r : float) (a : Args) : Args := {|
  numEvents := numEvents a;
  runNumberParam := runNumberParam a;
  sampleRate := r;
  horizontalWindow := horizontalWindow a;
  trigCh_arg := trigCh_arg a;
  trigLevel := trigLevel a;
  triggerSlope := triggerSlope a;
  vScale_ch1 := vScale_ch1 a;
  vPos_ch1 := vPos_ch1 a;
  timeoffset_ns := timeoffset_ns a;
  savewaves := savewaves a;
  timeout := timeout a
|}.

(** The same arguments with another number of events. *)
Definition with_numEvents (n : Z) (a : Args) : Args := {|
  numEvents := n;
  runNumberParam := runNumberParam a;
  sampleRate := sampleRate a;
  horizontalWindow := horizontalWindow a;
  trigCh_arg := trigCh_arg a;
  trigLevel := trigLevel a;
  triggerSlope := triggerSlope a;
  vScale_ch1 := vScale_ch1 a;
  vPos_ch1 := vPos_ch1 a;
  timeoffset_ns := timeoffset_ns a;
  savewaves := savewaves a;
  timeout := timeout a
|}.

(** More simulated instruments. *)
Module Scenario.


(** A logbook that already holds the record of an earlier run. *)
Definition with_logbook : gmap string fnode :=
  <[ log_path := Data "earlier record" ]> Fixture.counter_42.

End Scenario.

(** ** Reasoning about runs *)

Lemma bind_Ret_inv {A B} (m : M A) (k : A -> M B) s b s2 t :
  bind m k s = Run (Ret b) s2 t ->
  exists a s1 t1 t2,
    m s = Run (Ret a) s1 t1 /\ k a s1 = Run (Ret b) s2 t2 /\ t = t1 ++ t2.
Proof.
  unfold bind. destruct (m s) as [[a|e|] s1 t1]; try discriminate.
  destruct (k a s1) as [r s2' t2] eqn:E. intros [= -> -> <-]. eauto 10.
Qed.

Lemma bind_step {A B} (m : M A) (k : A -> M B) s a s1 t1 r s2 t2 :
  m s = Run (Ret a) s1 t1 -> k a s1 = Run r s2 t2 ->
  bind m k s = Run r s2 (t1 ++ t2).
Proof. unfold bind. intros -> ->. reflexivity. Qed.

Lemma bind_Raise {A B} (m : M A) (k : A -> M B) s e s1 t1 :
  m s = Run (Raise e) s1 t1 -> bind m k s = Run (Raise e) s1 t1.
Proof. unfold bind. intros ->. reflexivity. Qed.

(** *** Safety: every effect of a statement satisfies [P], however it ends *)

Section Always.

Context (P : event -> Prop).

Local Abbreviation always := (always P).

Lemma always_ret {A} (a : A) : always (ret a).
Proof. intros s. constructor. Qed.

Lemma always_raise {A} e : always (@raise A e).
Proof. intros s. constructor. Qed.

Lemma always_hang {A} : always (@hang A).
Proof. intros s. constructor. Qed.

Lemma always_emit e : P e -> always (emit e).
Proof. intros H s. repeat constructor. exact H. Qed.

Lemma always_bind {A B} (m : M A) (k : A -> M B) :
  always m -> (forall a, always (k a)) -> always (bind m k).
Proof.
  intros Hm Hk s. unfold bind. specialize (Hm s).
  destruct (m s) as [[a|e|] s1 t1]; simpl in *; try assumption.
  specialize (Hk a s1). destruct (k a s1) as [r s2 t2]; simpl in *.
  apply Forall_app; split; assumption.
Qed.

Context {RT : Runtime} (w : World).

Lemma always_dpo_read : (forall r, P (DpoRead r)) -> always (dpo_read w).
Proof. intros H [fs nr nt nd]. repeat constructor. apply H. Qed.

Lemma always_time_now : (forall t, P (TimeTime t)) -> always (time_now w).
Proof. intros H [fs nr nt nd]. repeat constructor. apply H. Qed.

Lemma always_date_now : (forall d, P (DatetimeNow d)) -> always (date_now w).
Proof. intros H [fs nr nt nd]. repeat constructor. apply H. Qed.

Lemma always_open path mode : P (FileOpen path mode) -> always (open_ path mode).
Proof.
  intros H [fs nr nt nd]. unfold open_.
  destruct (fs !! path) as [[|text]|], mode; repeat constructor; exact H.
Qed.

Lemma always_file_read path : P (FileRead path) -> always (file_read path).
Proof. intros H s. repeat constructor. exact H. Qed.

Lemma always_file_write path data :
  P (FileWrite path data) -> always (file_write path data).
Proof. intros H [fs nr nt nd]. repeat constructor. exact H. Qed.

End Always.

(** *** What a statement shows of itself when it returns normally *)

Section Shows.

Context {X : Type} (f : event -> list X).

Local Abbreviation shows := (shows f).

Lemma shows_ret {A} (a : A) : shows (ret a) [].
Proof. intros s. reflexivity. Qed.

Lemma shows_raise {A} e xs : shows (@raise A e) xs.
Proof. intros s. exact I. Qed.

Lemma shows_emit e : shows (emit e) (f e).
Proof. intros s. simpl. apply app_nil_r. Qed.

Lemma shows_emit_quiet e : f e = [] -> shows (emit e) [].
Proof. intros H s. simpl. rewrite H. reflexivity. Qed.

Lemma shows_bind {A B} (m : M A) (k : A -> M B) xs ys :
  shows m xs -> (forall a, shows (k a) ys) -> shows (bind m k) (xs ++ ys).
Proof.
  intros Hm Hk s. unfold bind. specialize (Hm s).
  destruct (m s) as [[a|e|] s1 t1]; simpl in *; try exact I.
  specialize (Hk a s1). destruct (k a s1) as [[b|e|] s2 t2]; simpl in *;
    try exact I.
  rewrite flat_map_app. congruence.
Qed.

Lemma shows_quiet {A} (m : M A) :
  always (fun e => f e = []) m -> shows m [].
Proof.
  intros H s. destruct (res (m s)); try exact I.
  specialize (H s). induction H as [|e t He _ IH]; simpl; [reflexivity|].
  rewrite He. exact IH.
Qed.

Lemma shows_eq {A} (m : M A) xs ys : shows m xs -> xs = ys -> shows m ys.
Proof. intros H <-. exact H. Qed.

Lemma shows_run {A} (m : M A) xs s a s' t :
  shows m xs -> m s = Run (Ret a) s' t -> flat_map f t = xs.
Proof. intros H E. specialize (H s). rewrite E in H. exact H. Qed.

Lemma shows_open path mode : shows (open_ path mode) (f (FileOpen path mode)).
Proof.
  intros [fs nr nt nd]. unfold open_.
  destruct (fs !! path) as [[|text]|], mode; simpl; auto using app_nil_r.
Qed.

Lemma shows_file_read path : shows (file_read path) (f (FileRead path)).
Proof. intros s. simpl. apply app_nil_r. Qed.

Lemma shows_file_write path data :
  shows (file_write path data) (f (FileWrite path data)).
Proof. intros [fs nr nt nd]. simpl. apply app_nil_r. Qed.

Lemma shows_file_write_quiet path data :
  f (FileWrite path data) = [] -> shows (file_write path data) [].
Proof. intros H [fs nr nt nd]. simpl. rewrite H. reflexivity. Qed.

Context {RT : Runtime} (w : World).

Lemma shows_dpo_read : (forall r, f (DpoRead r) = []) -> shows (dpo_read w) [].
Proof. intros H [fs nr nt nd]. simpl. rewrite H. reflexivity. Qed.

Lemma shows_time_now : (forall t, f (TimeTime t) = []) -> shows (time_now w) [].
Proof. intros H [fs nr nt nd]. simpl. rewrite H. reflexivity. Qed.

Lemma shows_date_now : (forall d, f (DatetimeNow d) = []) -> shows (date_now w) [].
Proof. intros H [fs nr nt nd]. simpl. rewrite H. reflexivity. Qed.

End Shows.

(** *** Normal return under an invariant of the file store *)

Section Total.

Context (I : gmap string fnode -> Prop).

Local Abbreviation total := (total I).

Lemma total_ret {A} (a : A) : total (ret a).
Proof. intros s H. split; [eexists; reflexivity | exact H]. Qed.

Lemma total_emit e : total (emit e).
Proof. intros s H. split; [eexists; reflexivity | exact H]. Qed.

Lemma total_bind {A B} (m : M A) (k : A -> M B) :
  total m -> (forall a, total (k a)) -> total (bind m k).
Proof.
  intros Hm Hk s H. unfold bind. destruct (Hm s H) as [[a Ha] H1].
  destruct (m s) as [r s1 t1]; simpl in *; subst r.
  destruct (Hk a s1 H1) as [[b Hb] H2].
  destruct (k a s1) as [r s2 t2]; simpl in *; subst r.
  split; [eexists; reflexivity | exact H2].
Qed.

Context {RT : Runtime} (w : World).

Lemma total_dpo_read : total (dpo_read w).
Proof. intros [fs nr nt nd] H. split; [eexists; reflexivity | exact H]. Qed.

Lemma total_time_now : total (time_now w).
Proof. intros [fs nr nt nd] H. split; [eexists; reflexivity | exact H]. Qed.

End Total.

Lemma total_open_w path : total (openable path) (open_ path ModeW).
Proof.
  intros [fs nr nt nd] H. unfold openable in *. simpl in *.
  destruct (fs !! path) as [[|text]|] eqn:E; simpl;
    try (split; [eexists; reflexivity | rewrite lookup_insert_eq; discriminate]).
  contradiction.
Qed.

Lemma total_file_write path data : total (openable path) (file_write path data).
Proof.
  intros [fs nr nt nd] H. unfold openable in *. simpl in *.
  split; [eexists; reflexivity|].
  rewrite lookup_partial_alter_eq.
  destruct (fs !! path) as [[|text]|]; discriminate.
Qed.

(** *** Statements that leave the file at [path] as it is *)

Section Keeps.

Context (path : string).

Local Abbreviation keeps := (keeps path).

Lemma keeps_ret {A} (a : A) : keeps (ret a).
Proof. intros s. reflexivity. Qed.

Lemma keeps_raise {A} e : keeps (@raise A e).
Proof. intros s. reflexivity. Qed.

Lemma keeps_hang {A} : keeps (@hang A).
Proof. intros s. reflexivity. Qed.

Lemma keeps_emit e : keeps (emit e).
Proof. intros s. reflexivity. Qed.

Lemma keeps_bind {A B} (m : M A) (k : A -> M B) :
  keeps m -> (forall a, keeps (k a)) -> keeps (bind m k).
Proof.
  intros Hm Hk s. unfold bind. specialize (Hm s).
  destruct (m s) as [[a|e|] s1 t1]; simpl in *; try assumption.
  specialize (Hk a s1). destruct (k a s1) as [r s2 t2]; simpl in *.
  congruence.
Qed.

Context {RT : Runtime} (w : World).

Lemma keeps_dpo_read : keeps (dpo_read w).
Proof. intros [fs nr nt nd]. reflexivity. Qed.

Lemma keeps_time_now : keeps (time_now w).
Proof. intros [fs nr nt nd]. reflexivity. Qed.

Lemma keeps_date_now : keeps (date_now w).
Proof. intros [fs nr nt nd]. reflexivity. Qed.

Lemma keeps_file_read p : keeps (file_read p).
Proof. intros s. reflexivity. Qed.

Lemma keeps_open_r p : keeps (open_ p ModeR).
Proof.
  intros [fs nr nt nd]. unfold open_.
  destruct (fs !! p) as [[|text]|]; reflexivity.
Qed.

Lemma keeps_open p mode : p <> path -> keeps (open_ p mode).
Proof.
  intros Hp [fs nr nt nd]. unfold open_.
  destruct (fs !! p) as [[|text]|], mode; simpl;
    rewrite ?lookup_insert_ne by exact Hp; reflexivity.
Qed.

Lemma keeps_file_write p data : p <> path -> keeps (file_write p data).
Proof.
  intros Hp [fs nr nt nd]. simpl. apply lookup_partial_alter_ne, Hp.
Qed.

End Keeps.

Lemma log_path_not_counter : log_path <> RunNumberFile.
Proof. discriminate. Qed.

Lemma run_log_path_not_counter : run_log_path <> RunNumberFile.
Proof. discriminate. Qed.

Ltac unfold_script :=
  unfold main, finish, save_waveforms, trigger_rate, data_transferring,
    status_ready, status_writing, status_busy, configure, trigger_setup,
    scope_vertical_setup, scope_channels_bandwidth, scope_horizontal_setup,
    set_the_output_folder, starting_run, configure_run_number,
    configure_instrument, search_connect, dpo_query, dpo_write, py_print,
    sleep, file_close.

Ltac always_step :=
  first
    [ apply always_bind; [|intros ?]
    | apply always_ret | apply always_raise | apply always_hang
    | apply always_emit
    | apply always_dpo_read; intros ?
    | apply always_time_now; intros ?
    | apply always_date_now; intros ?
    | apply always_open | apply always_file_read | apply always_file_write
    | match goal with
      | |- always _ (if ?b then _ else _) => destruct b
      | |- always _ (match ?x with _ => _ end) => destruct x
      end ].

Ltac shows_step :=
  first
    [ eapply shows_bind; [|intros ?]
    | apply shows_ret | apply shows_raise | apply shows_emit
    | apply shows_emit_quiet; reflexivity
    | apply shows_open | apply shows_file_read | apply shows_file_write
    | apply shows_file_write_quiet; reflexivity
    | apply shows_dpo_read; intros ?; reflexivity
    | apply shows_time_now; intros ?; reflexivity
    | apply shows_date_now; intros ?; reflexivity
    | match goal with
      | |- shows _ (if ?b then _ else _) _ => destruct b
      | |- shows _ (match ?x with _ => _ end) _ => destruct x
      end ].

Ltac total_step :=
  first
    [ apply total_bind; [|intros ?]
    | apply total_ret | apply total_emit | apply total_dpo_read
    | apply total_time_now | apply total_open_w | apply total_file_write
    | match goal with
      | |- total _ (if ?b then _ else _) => destruct b
      end ].

(** Undo one [bind] of a statement that returned normally. *)
Ltac inv_bind H :=
  let a := fresh "a" in
  let s := fresh "s" in
  let t := fresh "t" in
  let u := fresh "u" in
  let E := fresh "E" in
  apply bind_Ret_inv in H; destruct H as (a & s & t & u & E & H & ->).

Ltac keeps_step :=
  first
    [ apply keeps_bind; [|intros ?]
    | apply keeps_ret | apply keeps_raise | apply keeps_hang
    | apply keeps_emit | apply keeps_dpo_read | apply keeps_time_now
    | apply keeps_date_now | apply keeps_file_read | apply keeps_open_r
    | apply keeps_open | apply keeps_file_write
    | match goal with
      | |- keeps _ (if ?b then _ else _) => destruct b
      | |- keeps _ (match ?x with _ => _ end) => destruct x
      end ].

(** [timeout <= 0] makes the guard [timeout > 0] of line 276 false. *)
Lemma not_positive (t : float) :
  PrimFloat.leb t 0%float = true -> PrimFloat.ltb 0%float t = false.
Proof.
  rewrite leb_spec, ltb_spec. change (Prim2SF 0%float) with (S754_zero false).
  destruct (Prim2SF t) as [sg|sg| |sg m e]; try reflexivity;
    destruct sg; cbv; congruence.
Qed.

Section Properties.

Context {RT : Runtime} (w : World).

(** C1.  Whatever the arguments and the state it starts in, the
    configuration phase returns normally and sends these commands, in this
    order: the halt; time range, reference percent, automatic sample rate
    (followed by the query of the realised rate); the horizontal position;
    segmented mode, segment count, automatic point count, interpolation off;
    the bandwidth; channel 1 scale then offset; the trigger mode, source and
    level in one message, then the slope. *)
Theorem configure_command_order (a : Args) (s : State) :
  res (configure w a s) = Ret tt /\
  commands (trace (configure w a s)) =
    [ stop_command;
      ":TIMebase:RANGe " +:+ str_float hScale;
      ":TIMebase:REFerence:PERCent 70";
      ":ACQuire:SRATe:ANALog:AUTO ON";
      ":ACQuire:SRATe:ANALog?";
      ":TIMebase:POSition " +:+ str_float (timeoffset a);
      ":ACQuire:MODE SEGMented";
      ":ACQuire:SEGMented:COUNt " +:+ Py.str_int (numEvents a);
      ":ACQuire:POINts:ANALog AUTO";
      ":ACQuire:INTerpolate 0";
      ":ACQuire:BANDwidth 5.E10";
      "CHANnel1:SCALe " +:+ str_float (vScale_ch1 a);
      "CHANnel1:OFFSet " +:+ str_float (vPos_ch1 a);
      "TRIGger:MODE EDGE; :TRIGger:EDGE:SOURce " +:+ trigCh a
        +:+ "; :TRIGger:LEVel " +:+ trigCh a +:+ ", " +:+ pct_f 6 (trigLevel a);
      ":TRIGger:EDGE:SLOPe " +:+ triggerSlope a +:+ ";" ].
Proof.
  destruct s as [fs nr nt nd]. split; reflexivity.
Qed.

(** The loop performs only instrument traffic, sleeps, clock readings and
    one line of output. *)
Lemma always_poll (P : event -> Prop) fuel timeout start :
  P (DpoWrite ":ADER?") -> (forall r, P (DpoRead r)) ->
  P (Stdout "Acquisition complete") -> P (TimeSleep 0.1%float) ->
  (forall t, P (TimeTime t)) -> P (DpoWrite stop_command) ->
  always P (poll w fuel timeout start).
Proof.
  intros H1 H2 H3 H4 H5 H6.
  induction fuel as [|fuel IH]; simpl; [apply always_hang|].
  unfold dpo_query, dpo_write, py_print, sleep.
  repeat (first [exact IH | always_step]); auto.
Qed.

Lemma keeps_poll path fuel timeout start :
  keeps path (poll w fuel timeout start).
Proof.
  induction fuel as [|fuel IH]; simpl; [apply keeps_hang|].
  unfold dpo_query, dpo_write, py_print, sleep.
  repeat (first [exact IH | keeps_step]).
Qed.

Lemma counter_never_written fuel a :
  always (fun e => writes_to RunNumberFile e = false) (main w fuel a).
Proof.
  unfold_script.
  repeat (first [apply always_poll | always_step]); auto.
Qed.

Lemma counter_kept fuel a : keeps RunNumberFile (main w fuel a).
Proof.
  unfold_script.
  repeat (first [apply keeps_poll | keeps_step]);
    first [exact log_path_not_counter | exact run_log_path_not_counter].
Qed.

(** With an override the counter block is skipped: no effect at all. *)
Lemma override_skips_counter (a : Args) (s : State) :
  runNumberParam a <> (-1)%Z ->
  configure_run_number a s = Run (Ret (runNumberParam a)) s [].
Proof.
  intros H. unfold configure_run_number.
  destruct (Z.eqb_spec (runNumberParam a) (-1)); [contradiction | reflexivity].
Qed.

(** Without one, the counter file is opened and read; its text decides. *)
Lemma counter_read (a : Args) (s : State) text :
  runNumberParam a = (-1)%Z -> files s !! RunNumberFile = Some (Data text) ->
  configure_run_number a s =
    Run (match Py.int text with Some n => Ret n | None => Raise Py.ValueError end)
        s [FileOpen RunNumberFile ModeR; FileRead RunNumberFile;
           FileClose RunNumberFile].
Proof.
  intros Ha Hf. unfold configure_run_number. rewrite Ha. simpl.
  destruct s as [fs nr nt nd]. simpl in Hf.
  unfold bind, open_, file_read, file_close, emit, contents, ret, raise.
  cbn -[RunNumberFile Py.int]. rewrite Hf.
  cbn -[RunNumberFile Py.int]. rewrite Hf.
  destruct (Py.int text); reflexivity.
Qed.

Lemma counter_not_opened (a : Args) (s : State) :
  runNumberParam a = (-1)%Z ->
  files s !! RunNumberFile = None \/ files s !! RunNumberFile = Some Denied ->
  exists e, CounterUnavailable e /\
    configure_run_number a s = Run (Raise e) s [FileOpen RunNumberFile ModeR].
Proof.
  intros Ha Hf. unfold configure_run_number. rewrite Ha. simpl.
  destruct s as [fs nr nt nd]. simpl in Hf. unfold bind, open_.
  destruct Hf as [-> | ->]; eexists; (split; [|reflexivity]);
    unfold CounterUnavailable; auto.
Qed.

(** An exception of the counter block ends the script there: the
    identification query is the only command sent. *)
Lemma main_aborts_at_counter fuel (a : Args) (s : State) e t :
  (forall s1, files s1 = files s -> configure_run_number a s1 = Run (Raise e) s1 t) ->
  res (main w fuel a s) = Raise e /\
  commands (trace (main w fuel a s)) = "*idn?" :: commands t.
Proof.
  intros H. destruct s as [fs nr nt nd]. unfold main.
  erewrite bind_step; [| reflexivity |].
  2:{ eapply bind_step; [reflexivity|]. eapply bind_Raise. apply H. reflexivity. }
  split; reflexivity.
Qed.

Lemma override_never_touches_counter fuel (a : Args) :
  runNumberParam a <> (-1)%Z ->
  always (fun e => touches RunNumberFile e = false) (main w fuel a).
Proof.
  intros Ha.
  assert (Hrn : always (fun e => touches RunNumberFile e = false)
                  (configure_run_number a)).
  { intros s. rewrite (override_skips_counter a s Ha). constructor. }
  unfold main, finish, save_waveforms, trigger_rate, data_transferring,
    status_ready, status_writing, status_busy, configure, trigger_setup,
    scope_vertical_setup, scope_channels_bandwidth, scope_horizontal_setup,
    set_the_output_folder, starting_run, configure_instrument, search_connect,
    dpo_query, dpo_write, py_print, sleep, file_close.
  repeat (first [exact Hrn | apply always_poll | always_step]); auto.
Qed.

(** C6.  Run-number resolution: (1) with -1 and a counter file holding the
    text 42 the run number is 42; (2) with 7 it is 7 and no statement of the
    run touches the counter file;
    (3) with -1 and a counter file that is missing, may not be opened, or
    holds no integer, the script ends with an exception of the counter
    block, having sent the instrument nothing but the identification query;
    (4) no run, however it ends, writes to the counter file or changes it. *)
Theorem run_number_resolution (fuel : nat) (a : Args) (s : State) :
  (runNumberParam a = (-1)%Z ->
   files s !! RunNumberFile = Some (Data "42") ->
   res (configure_run_number a s) = Ret 42%Z) /\
  (runNumberParam a = 7%Z ->
   configure_run_number a s = Run (Ret 7%Z) s [] /\
   Forall (fun e => touches RunNumberFile e = false) (trace (main w fuel a s))) /\
  (runNumberParam a = (-1)%Z ->
   (files s !! RunNumberFile = None \/
    files s !! RunNumberFile = Some Denied \/
    exists text, files s !! RunNumberFile = Some (Data text) /\ Py.int text = None) ->
   exists e, CounterUnavailable e /\
     res (main w fuel a s) = Raise e /\
     commands (trace (main w fuel a s)) = ["*idn?"]) /\
  (Forall (fun e => writes_to RunNumberFile e = false) (trace (main w fuel a s)) /\
   files (final (main w fuel a s)) !! RunNumberFile = files s !! RunNumberFile).
Proof.
  split; [|split; [|split]].
  - intros Ha Hf. rewrite (counter_read a s _ Ha Hf). reflexivity.
  - intros Ha. assert (Hne : runNumberParam a <> (-1)%Z) by (rewrite Ha; discriminate).
    split; [rewrite <- Ha; apply override_skips_counter, Hne|].
    apply override_never_touches_counter, Hne.
  - intros Ha Hf.
    assert (Hbad : exists e t, CounterUnavailable e /\ commands t = [] /\
              forall s1, files s1 = files s ->
                configure_run_number a s1 = Run (Raise e) s1 t).
    { destruct Hf as [Hf | [Hf | (text & Hf & Hint)]].
      - exists Py.FileNotFoundError, [FileOpen RunNumberFile ModeR].
        split; [left; reflexivity|]. split; [reflexivity|].
        intros [fs1 nr nt nd] E. simpl in E. subst fs1.
        unfold configure_run_number. rewrite Ha. simpl. unfold bind, open_.
        rewrite Hf. reflexivity.
      - exists Py.PermissionError, [FileOpen RunNumberFile ModeR].
        split; [right; left; reflexivity|]. split; [reflexivity|].
        intros [fs1 nr nt nd] E. simpl in E. subst fs1.
        unfold configure_run_number. rewrite Ha. simpl. unfold bind, open_.
        rewrite Hf. reflexivity.
      - exists Py.ValueError, [FileOpen RunNumberFile ModeR;
                               FileRead RunNumberFile; FileClose RunNumberFile].
        split; [right; right; reflexivity|]. split; [reflexivity|].
        intros s1 E. rewrite <- E in Hf.
        rewrite (counter_read a s1 text Ha Hf), Hint. reflexivity. }
    destruct Hbad as (e & t & He & Ht & Hrun).
    exists e. split; [exact He|].
    destruct (main_aborts_at_counter fuel a s e t Hrun) as [Hr Hc].
    rewrite Hr, Hc, Ht. split; reflexivity.
  - split; [apply counter_never_written | apply counter_kept].
Qed.

(** One turn of the loop when the deadline is not in force. *)
Lemma poll_unbounded_step fuel timeout start fs nr nt nd :
  PrimFloat.ltb 0%float timeout = false ->
  poll w (S fuel) timeout start (mkState fs nr nt nd) =
    let reply := dpo_reply w nr in
    let s1 := mkState fs (S nr) nt nd in
    match Py.int reply with
    | None => Run (Raise Py.ValueError) s1 [DpoWrite ":ADER?"; DpoRead reply]
    | Some n =>
        if (n =? 1)%Z
        then Run (Ret false) s1
               [DpoWrite ":ADER?"; DpoRead reply; Stdout "Acquisition complete"]
        else
          let r := poll w fuel timeout start s1 in
          Run (res r) (final r)
            (DpoWrite ":ADER?" :: DpoRead reply :: TimeSleep 0.1%float :: trace r)
    end.
Proof.
  intros H. cbn [poll]. unfold dpo_query, dpo_write, dpo_read, py_print, sleep, emit, bind.
  cbn [res final trace app]. destruct (Py.int (dpo_reply w nr)) as [n|]; [|reflexivity].
  destruct (n =? 1)%Z; [reflexivity|]. rewrite H.
  destruct (poll w fuel timeout start _) as [r s2 t2]. reflexivity.
Qed.

Lemma poll_unbounded_safe fuel timeout start :
  PrimFloat.ltb 0%float timeout = false ->
  forall s,
    let r := poll w fuel timeout start s in
    res r <> Ret true /\
    ~ In stop_command (commands (trace r)) /\
    n_time (final r) = n_time s.
Proof.
  intros H. induction fuel as [|fuel IH]; intros [fs nr nt nd].
  - simpl. repeat split; [discriminate | tauto].
  - cbv zeta. rewrite (poll_unbounded_step _ _ _ _ _ _ _ H). cbv zeta.
    destruct (Py.int (dpo_reply w nr)) as [n|].
    + destruct (n =? 1)%Z.
      * simpl. repeat split; [discriminate | intros [E|[]]; discriminate].
      * specialize (IH (mkState fs (S nr) nt nd)). cbv zeta in IH.
        destruct IH as (IH1 & IH2 & IH3). cbn [res final trace].
        repeat split; [exact IH1 | | exact IH3].
        intros [E|E]; [discriminate | exact (IH2 E)].
    + simpl. repeat split; [discriminate | intros [E|[]]; discriminate].
Qed.

Lemma poll_unbounded_exit fuel timeout start :
  PrimFloat.ltb 0%float timeout = false ->
  forall s,
    res (poll w fuel timeout start s) = Ret false ->
    exists k,
      (k < fuel)%nat /\
      n_read (final (poll w fuel timeout start s)) = (n_read s + S k)%nat /\
      Py.int (dpo_reply w (n_read s + k)) = Some 1%Z.
Proof.
  intros H. induction fuel as [|fuel IH]; intros [fs nr nt nd].
  - simpl. discriminate.
  - rewrite (poll_unbounded_step _ _ _ _ _ _ _ H). cbv zeta.
    destruct (Py.int (dpo_reply w nr)) as [n|] eqn:En; [|discriminate].
    destruct (Z.eqb_spec n 1) as [->|Hn].
    + intros _. exists 0%nat. cbn [n_read final]. rewrite Nat.add_0_r.
      repeat split; [lia | lia | exact En].
    + cbn [res final]. intros Hr.
      destruct (IH (mkState fs (S nr) nt nd) Hr) as (k & Hk & Hfin & Hrep).
      exists (S k). cbn [n_read] in *.
      repeat split; [lia | rewrite Hfin; lia |].
      replace (nr + S k)%nat with (S nr + k)%nat by lia. exact Hrep.
Qed.

Lemma poll_unbounded_completes fuel timeout start :
  PrimFloat.ltb 0%float timeout = false ->
  forall s k,
    (k < fuel)%nat ->
    Py.int (dpo_reply w (n_read s + k)) = Some 1%Z ->
    (forall j, (j < k)%nat ->
       exists n, Py.int (dpo_reply w (n_read s + j)) = Some n /\ n <> 1%Z) ->
    res (poll w fuel timeout start s) = Ret false.
Proof.
  intros H. induction fuel as [|fuel IH]; intros [fs nr nt nd] k Hk H1 Hbefore.
  - lia.
  - rewrite (poll_unbounded_step _ _ _ _ _ _ _ H). cbv zeta. cbn [n_read] in *.
    destruct k as [|k].
    + rewrite Nat.add_0_r in H1. rewrite H1. reflexivity.
    + destruct (Hbefore 0%nat ltac:(lia)) as (n & Hn & Hne).
      rewrite Nat.add_0_r in Hn. rewrite Hn.
      destruct (Z.eqb_spec n 1); [contradiction|]. cbn [res].
      apply (IH (mkState fs (S nr) nt nd) k); [lia | |].
      * cbn [n_read]. replace (S nr + k)%nat with (nr + S k)%nat by lia. exact H1.
      * intros j Hj. cbn [n_read].
        replace (S nr + j)%nat with (nr + S j)%nat by lia.
        apply Hbefore. lia.
Qed.

Lemma poll_unbounded_waits fuel timeout start :
  PrimFloat.ltb 0%float timeout = false ->
  forall s,
    (forall j, (j < fuel)%nat ->
       exists n, Py.int (dpo_reply w (n_read s + j)) = Some n /\ n <> 1%Z) ->
    res (poll w fuel timeout start s) = Hang /\
    commands (trace (poll w fuel timeout start s)) = repeat ":ADER?" fuel.
Proof.
  intros H. induction fuel as [|fuel IH]; intros [fs nr nt nd] Hall.
  - split; reflexivity.
  - rewrite (poll_unbounded_step _ _ _ _ _ _ _ H). cbv zeta. cbn [n_read] in *.
    destruct (Hall 0%nat ltac:(lia)) as (n & Hn & Hne).
    rewrite Nat.add_0_r in Hn. rewrite Hn.
    destruct (Z.eqb_spec n 1); [contradiction|]. cbn [res trace].
    destruct (IH (mkState fs (S nr) nt nd)) as [IH1 IH2].
    { intros j Hj. cbn [n_read].
      replace (S nr + j)%nat with (nr + S j)%nat by lia. apply Hall. lia. }
    split; [exact IH1|]. cbn [repeat]. rewrite <- IH2. reflexivity.
Qed.

(** C4.  With a timeout that is not positive the loop never leaves through
    the deadline: whatever the instrument replies and however long it is run,
    it does not end with [end_early] set, never sends the stop command and
    never reads the clock.  It returns only after reading a reply equal to 1,
    it does return at the first such reply, and as long as the replies are
    integers other than 1 it keeps polling. *)
Theorem unbounded_wait_never_times_out
    (fuel : nat) (timeout start : float) (s : State) :
  PrimFloat.leb timeout 0%float = true ->
  let r := poll w fuel timeout start s in
  (res r <> Ret true /\
   ~ In stop_command (commands (trace r)) /\
   n_time (final r) = n_time s) /\
  (res r = Ret false ->
   exists k, (k < fuel)%nat /\
     n_read (final r) = (n_read s + S k)%nat /\
     Py.int (dpo_reply w (n_read s + k)) = Some 1%Z) /\
  (forall k, (k < fuel)%nat ->
     Py.int (dpo_reply w (n_read s + k)) = Some 1%Z ->
     (forall j, (j < k)%nat ->
        exists n, Py.int (dpo_reply w (n_read s + j)) = Some n /\ n <> 1%Z) ->
     res r = Ret false) /\
  ((forall j, (j < fuel)%nat ->
      exists n, Py.int (dpo_reply w (n_read s + j)) = Some n /\ n <> 1%Z) ->
   res r = Hang /\ commands (trace r) = repeat ":ADER?" fuel).
Proof.
  intros Hle. pose proof (not_positive timeout Hle) as H. cbv zeta.
  split; [|split; [|split]].
  - apply (poll_unbounded_safe fuel timeout start H s).
  - apply (poll_unbounded_exit fuel timeout start H s).
  - intros k. apply (poll_unbounded_completes fuel timeout start H s k).
  - apply (poll_unbounded_waits fuel timeout start H s).
Qed.

(** The status blocks: each opens the status file afresh, so what the file
    holds afterwards does not depend on what it held before. *)
Lemma status_busy_inv (s s' : State) t :
  status_busy s = Run (Ret tt) s' t ->
  files s' !! run_log_path = Some (Data "busy") /\
  n_read s' = n_read s /\
  t = [FileOpen run_log_path ModeW; FileWrite run_log_path "busy";
       FileClose run_log_path].
Proof.
  destruct s as [fs nr nt nd].
  unfold status_busy, bind, open_, file_write, file_close, emit.
  destruct (fs !! run_log_path) as [[|text]|]; cbn -[run_log_path];
    try discriminate; intros [= <- <-]; cbn [files n_read];
    rewrite lookup_partial_alter_eq, lookup_insert_eq; repeat split.
Qed.

Lemma status_writing_inv (s s' : State) t :
  status_writing s = Run (Ret tt) s' t ->
  files s' !! run_log_path = Some (Data ("writing" +:+ Py.LF)) /\
  n_read s' = n_read s /\
  t = [FileOpen run_log_path ModeW; FileWrite run_log_path "writing";
       FileWrite run_log_path Py.LF; FileClose run_log_path].
Proof.
  destruct s as [fs nr nt nd].
  unfold status_writing, bind, open_, file_write, file_close, emit.
  destruct (fs !! run_log_path) as [[|text]|]; cbn -[run_log_path];
    try discriminate; intros [= <- <-]; cbn [files n_read];
    rewrite !lookup_partial_alter_eq, lookup_insert_eq; repeat split.
Qed.

Lemma status_ready_inv (s s' : State) t :
  status_ready s = Run (Ret tt) s' t ->
  files s' !! run_log_path = Some (Data ("ready" +:+ Py.LF)) /\
  n_read s' = n_read s /\
  t = [FileOpen run_log_path ModeW; FileWrite run_log_path "ready";
       FileWrite run_log_path Py.LF; FileClose run_log_path].
Proof.
  destruct s as [fs nr nt nd].
  unfold status_ready, bind, open_, file_write, file_close, emit.
  destruct (fs !! run_log_path) as [[|text]|]; cbn -[run_log_path];
    try discriminate; intros [= <- <-]; cbn [files n_read];
    rewrite !lookup_partial_alter_eq, lookup_insert_eq; repeat split.
Qed.

(** The export block, statement by statement. *)
Lemma save_waveforms_run (a : Args) (rn : Z) fs nr nt nd :
  save_waveforms w a rn (mkState fs nr nt nd) =
    if Py.truthy (savewaves a)
    then Run (Ret tt) (mkState fs (S (S nr)) nt nd)
           [DpoWrite ":DISK:SEGMented ALL";
            DpoWrite "*OPC?"; DpoRead (dpo_reply w nr);
            Stdout (dpo_reply w nr); Stdout "Ready to save all segments";
            TimeSleep 0.5%float;
            DpoWrite (save_command rn);
            DpoWrite "*OPC?"; DpoRead (dpo_reply w (S nr));
            Stdout (dpo_reply w (S nr)); Stdout "Saved Channel 1 waveform";
            TimeSleep 1%float]
    else Run (Ret tt) (mkState fs nr nt nd) [].
Proof. unfold save_waveforms. destruct (Py.truthy (savewaves a)); reflexivity. Qed.

(** The line of lines 294-295. *)
Lemma trigger_rate_inv (a : Args) (st en : float) (ee : bool) (s s' : State) d q t :
  trigger_rate a st en ee s = Run (Ret (d, q)) s' t ->
  s' = s /\ d = PrimFloat.sub en st /\
  (exists n, Py.float_of_int (numEvents a) = Some n /\ Py.truediv n d = Some q) /\
  t = [Stdout
         (if ee
          then Py.LF +:+ "Run duration: " +:+ pct_f 2 d
               +:+ " s. Trigger rate: unknown" +:+ Py.LF
          else Py.LF +:+ "Run duration: " +:+ pct_f 2 d
               +:+ " s. Trigger rate: " +:+ pct_f 2 q +:+ " Hz" +:+ Py.LF)].
Proof.
  unfold trigger_rate.
  destruct (Py.float_of_int (numEvents a)) as [n|] eqn:En; [|discriminate].
  destruct (Py.truediv n (PrimFloat.sub en st)) as [q'|] eqn:Eq; [|discriminate].
  destruct ee; cbn -[String.append]; intros [= <- <- <- <-];
    repeat split; eauto.
Qed.

Lemma total_finish (a : Args) (rn : Z) (st en : float) (ee : bool) n q :
  Py.float_of_int (numEvents a) = Some n ->
  Py.truediv n (PrimFloat.sub en st) = Some q ->
  total (openable run_log_path) (finish w a rn st en ee).
Proof.
  intros Hn Hq.
  unfold finish, save_waveforms, trigger_rate, status_writing, status_ready.
  rewrite Hn, Hq. unfold dpo_query, dpo_write, py_print, sleep, file_close.
  repeat total_step.
Qed.

Lemma finish_commands (a : Args) (rn : Z) (st en : float) (ee : bool) :
  shows command_of (finish w a rn st en ee)
    (if Py.truthy (savewaves a)
     then [":DISK:SEGMented ALL"; "*OPC?"; save_command rn; "*OPC?"]
     else []).
Proof.
  unfold finish, save_waveforms, trigger_rate, status_writing, status_ready.
  unfold dpo_query, dpo_write, py_print, sleep, file_close.
  destruct (Py.truthy (savewaves a)).
  - eapply shows_eq; [repeat shows_step | reflexivity].
  - eapply shows_eq; [repeat shows_step | reflexivity].
Qed.

(** The export where line 292 does not raise.  Once the loop has ended, on
    either path, and provided the status file can be opened and the rate of
    line 292 can be computed, what follows
    returns normally and sends the instrument exactly: with the save flag set,
    the all-segments directive, an operation-complete query, one save command
    for channel 1 whose file name carries the run number, and an
    operation-complete query; with the flag clear, nothing.  In the export
    block each query is a write followed at once by the read of its reply. *)
Theorem export_follows_save_flag
    (a : Args) (rn : Z) (st en : float) (ee : bool) (s : State) (n q : float) :
  openable run_log_path (files s) ->
  Py.float_of_int (numEvents a) = Some n ->
  Py.truediv n (PrimFloat.sub en st) = Some q ->
  let r := finish w a rn st en ee s in
  (exists g, res r = Ret g) /\
  commands (trace r) =
    (if Py.truthy (savewaves a)
     then [ ":DISK:SEGMented ALL";
            "*OPC?";
            ":DISK:SAVE:WAVeform CHANnel1 ," +:+ Py.DQ
              +:+ "C:\LCE_BTL_Module\Wavenewscope_CH1_run" +:+ Py.str_int rn
              +:+ Py.DQ +:+ ",BIN,ON";
            "*OPC?" ]
     else []) /\
  trace (save_waveforms w a rn s) =
    (if Py.truthy (savewaves a)
     then [ DpoWrite ":DISK:SEGMented ALL";
            DpoWrite "*OPC?"; DpoRead (dpo_reply w (n_read s));
            Stdout (dpo_reply w (n_read s)); Stdout "Ready to save all segments";
            TimeSleep 0.5%float;
            DpoWrite (save_command rn);
            DpoWrite "*OPC?"; DpoRead (dpo_reply w (S (n_read s)));
            Stdout (dpo_reply w (S (n_read s))); Stdout "Saved Channel 1 waveform";
            TimeSleep 1%float ]
     else []).
Proof.
  intros Hs Hn Hq. cbv zeta.
  destruct (total_finish a rn st en ee n q Hn Hq s Hs) as [[g Hg] _].
  split; [exists g; exact Hg|]. split.
  - pose proof (finish_commands a rn st en ee s) as H. rewrite Hg in H.
    unfold commands. rewrite H. destruct (Py.truthy (savewaves a)); reflexivity.
  - destruct s as [fs nr nt nd]. rewrite save_waveforms_run.
    destruct (Py.truthy (savewaves a)); reflexivity.
Qed.

(** What follows the loop, taken apart. *)
Lemma finish_inv (a : Args) (rn : Z) (st en : float) (ee : bool) (s s' : State) g t :
  finish w a rn st en ee s = Run (Ret g) s' t ->
  exists d q s1 t1 t3 s4 t4,
    g = {| runNumber := rn; start := st; end_ := en; end_early := ee;
           duration := d; trigRate := q |} /\
    status_writing s = Run (Ret tt) s1 t1 /\
    d = PrimFloat.sub en st /\
    (exists n, Py.float_of_int (numEvents a) = Some n /\ Py.truediv n d = Some q) /\
    save_waveforms w a rn s1 = Run (Ret tt) s4 t3 /\
    status_ready s4 = Run (Ret tt) s' t4 /\
    t = t1 ++
        [Stdout
           (if ee
            then Py.LF +:+ "Run duration: " +:+ pct_f 2 d
                 +:+ " s. Trigger rate: unknown" +:+ Py.LF
            else Py.LF +:+ "Run duration: " +:+ pct_f 2 d
                 +:+ " s. Trigger rate: " +:+ pct_f 2 q +:+ " Hz" +:+ Py.LF)]
        ++ t3 ++ t4 ++ [DpoClose].
Proof.
  intros H. unfold finish in H.
  apply bind_Ret_inv in H. destruct H as ([] & s1 & t1 & u1 & E1 & H & ->).
  apply bind_Ret_inv in H. destruct H as ([d q] & s2 & t2 & u2 & E2 & H & ->).
  apply bind_Ret_inv in H. destruct H as ([] & s3 & t3 & u3 & E3 & H & ->).
  apply bind_Ret_inv in H. destruct H as ([] & s4 & t4 & u4 & E4 & H & ->).
  apply bind_Ret_inv in H. destruct H as ([] & s5 & t5 & u5 & E5 & H & ->).
  unfold emit in E5. unfold ret in H.
  injection E5 as <- <-. injection H as <- <- <-.
  apply trigger_rate_inv in E2. destruct E2 as (-> & Hd & Hn & ->).
  exists d, q, s1, t1, t3, s3, t4. simpl. repeat split; auto.
Qed.

(** C2.  When what follows the loop returns normally, the rate it holds is
    the float quotient of the event count by the duration [end - start], and
    the report line carries that rate exactly when the loop ended on
    completion ([end_early] false); when it ended on the deadline the line
    reads "unknown" and no rate is printed.  The remaining lines are those of
    the export block. *)
Theorem trigger_rate_reported
    (a : Args) (rn : Z) (st en : float) (ee : bool) (s : State) (g : Globals) :
  res (finish w a rn st en ee s) = Ret g ->
  end_early g = ee /\
  duration g = PrimFloat.sub en st /\
  (exists n, Py.float_of_int (numEvents a) = Some n /\
             Py.truediv n (duration g) = Some (trigRate g)) /\
  printed (trace (finish w a rn st en ee s)) =
    (if ee
     then Py.LF +:+ "Run duration: " +:+ pct_f 2 (duration g)
          +:+ " s. Trigger rate: unknown" +:+ Py.LF
     else Py.LF +:+ "Run duration: " +:+ pct_f 2 (duration g)
          +:+ " s. Trigger rate: " +:+ pct_f 2 (trigRate g) +:+ " Hz" +:+ Py.LF)
    :: (if Py.truthy (savewaves a)
        then [ dpo_reply w (n_read s); "Ready to save all segments";
               dpo_reply w (S (n_read s)); "Saved Channel 1 waveform" ]
        else []).
Proof.
  intros H. destruct (finish w a rn st en ee s) as [r s' t] eqn:E.
  simpl in H. subst r. cbn [trace].
  apply finish_inv in E.
  destruct E as (d & q & s1 & t1 & t3 & s4 & t4 & -> & E1 & Hd & Hn & E3 & E4 & ->).
  apply status_writing_inv in E1. destruct E1 as (_ & Hr1 & ->).
  apply status_ready_inv in E4. destruct E4 as (_ & _ & ->).
  destruct s1 as [fs1 nr1 nt1 nd1]. rewrite save_waveforms_run in E3.
  cbn [n_read] in Hr1. subst nr1. cbn [end_early duration trigRate].
  repeat split; auto.
  unfold printed. rewrite !flat_map_app.
  destruct (Py.truthy (savewaves a)); injection E3 as <- <-; reflexivity.
Qed.

Lemma shows_poll {X} (f : event -> list X) fuel timeout start :
  f (DpoWrite ":ADER?") = [] -> (forall r, f (DpoRead r) = []) ->
  f (Stdout "Acquisition complete") = [] -> f (TimeSleep 0.1%float) = [] ->
  (forall t, f (TimeTime t) = []) -> f (DpoWrite stop_command) = [] ->
  shows f (poll w fuel timeout start) [].
Proof. intros. apply shows_quiet, always_poll; assumption. Qed.

(** A run of the script that returns normally ends with what follows the
    loop. *)
Lemma main_inv fuel (a : Args) (s s' : State) g t :
  main w fuel a s = Run (Ret g) s' t ->
  exists rn st en ee s1 t1 t2,
    (exists s0 s0' t0, configure_run_number a s0 = Run (Ret rn) s0' t0) /\
    finish w a rn st en ee s1 = Run (Ret g) s' t2 /\ t = t1 ++ t2.
Proof.
  intros H. unfold main in H.
  inv_bind H. inv_bind H.
  apply bind_Ret_inv in H. destruct H as (rn & s2 & t2 & u2 & Ern & H & ->).
  do 5 (inv_bind H). rewrite !app_assoc. eauto 15.
Qed.

Lemma main_status_events fuel (a : Args) :
  shows (fun e => if touches run_log_path e then [e] else []) (main w fuel a)
    [ FileOpen run_log_path ModeW; FileWrite run_log_path "busy";
      FileClose run_log_path;
      FileOpen run_log_path ModeW; FileWrite run_log_path "writing";
      FileWrite run_log_path Py.LF; FileClose run_log_path;
      FileOpen run_log_path ModeW; FileWrite run_log_path "ready";
      FileWrite run_log_path Py.LF; FileClose run_log_path ].
Proof.
  unfold_script.
  eapply shows_eq;
    [repeat (first [apply shows_poll; try reflexivity; intros ?; reflexivity
                   | shows_step]) | reflexivity].
Qed.

(** C3.  In a run that returns normally the effects on the status file are,
    in order: open for writing (which truncates), write "busy", close; open
    for writing, write "writing", write a newline, close; open for writing,
    write "ready", write a newline, close.  Each block leaves the file holding
    its own token only, whatever the file held before, and the run leaves it
    holding "ready" and a newline. *)
Theorem status_sequence (fuel : nat) (a : Args) (s : State) (g : Globals) :
  res (main w fuel a s) = Ret g ->
  file_events run_log_path (trace (main w fuel a s)) =
    [ FileOpen run_log_path ModeW; FileWrite run_log_path "busy";
      FileClose run_log_path;
      FileOpen run_log_path ModeW; FileWrite run_log_path "writing";
      FileWrite run_log_path Py.LF; FileClose run_log_path;
      FileOpen run_log_path ModeW; FileWrite run_log_path "ready";
      FileWrite run_log_path Py.LF; FileClose run_log_path ] /\
  contents (files (final (main w fuel a s))) run_log_path = "ready" +:+ Py.LF /\
  (forall s1 s2 t, status_busy s1 = Run (Ret tt) s2 t ->
     contents (files s2) run_log_path = "busy") /\
  (forall s1 s2 t, status_writing s1 = Run (Ret tt) s2 t ->
     contents (files s2) run_log_path = "writing" +:+ Py.LF) /\
  (forall s1 s2 t, status_ready s1 = Run (Ret tt) s2 t ->
     contents (files s2) run_log_path = "ready" +:+ Py.LF).
Proof.
  intros H. split; [|split; [|split; [|split]]].
  - pose proof (main_status_events fuel a s) as Hs. rewrite H in Hs. exact Hs.
  - destruct (main w fuel a s) as [r s' t] eqn:E. simpl in H. subst r.
    apply main_inv in E.
    destruct E as (rn & st & en & ee & s1 & t1 & t2 & _ & E & _).
    apply finish_inv in E.
    destruct E as (d & q & s2 & u1 & u3 & s4 & u4 & _ & _ & _ & _ & _ & E & _).
    apply status_ready_inv in E. destruct E as (E & _).
    cbn [final]. unfold contents. rewrite E. reflexivity.
  - intros s1 s2 t E. apply status_busy_inv in E. destruct E as (E & _).
    unfold contents. rewrite E. reflexivity.
  - intros s1 s2 t E. apply status_writing_inv in E. destruct E as (E & _).
    unfold contents. rewrite E. reflexivity.
  - intros s1 s2 t E. apply status_ready_inv in E. destruct E as (E & _).
    unfold contents. rewrite E. reflexivity.
Qed.

(** C9.  The horizontal window does not reach the instrument, nor anything
    else: runs that differ in it alone are the same run, effect for effect.
    The time range sent in the configuration phase is the rendering of the
    constant 1e-6, the second command of the phase. *)
Theorem horizontal_window_ignored
    (fuel : nat) (a : Args) (hw : string) (s : State) :
  main w fuel (with_horizontalWindow hw a) s = main w fuel a s /\
  nth_error (commands (trace (configure w a s))) 1 =
    Some (":TIMebase:RANGe " +:+ str_float 1e-6%float) /\
  commands (trace (configure w (with_horizontalWindow hw a) s)) =
    commands (trace (configure w a s)).
Proof.
  split; [reflexivity|]. destruct s as [fs nr nt nd]. split; reflexivity.
Qed.

(** One turn of the loop. *)
Lemma poll_step fuel timeout start fs nr nt nd :
  poll w (S fuel) timeout start (mkState fs nr nt nd) =
    let reply := dpo_reply w nr in
    let s1 := mkState fs (S nr) nt nd in
    let s2 := mkState fs (S nr) (S nt) nd in
    let now := time_time w nt in
    match Py.int reply with
    | None => Run (Raise Py.ValueError) s1 [DpoWrite ":ADER?"; DpoRead reply]
    | Some n =>
        if (n =? 1)%Z
        then Run (Ret false) s1
               [DpoWrite ":ADER?"; DpoRead reply; Stdout "Acquisition complete"]
        else if PrimFloat.ltb 0%float timeout
        then if PrimFloat.ltb timeout (PrimFloat.sub now start)
             then Run (Ret true) s2
                    [DpoWrite ":ADER?"; DpoRead reply; TimeSleep 0.1%float;
                     TimeTime now; DpoWrite stop_command]
             else
               let r := poll w fuel timeout start s2 in
               Run (res r) (final r)
                 (DpoWrite ":ADER?" :: DpoRead reply :: TimeSleep 0.1%float
                  :: TimeTime now :: trace r)
        else
          let r := poll w fuel timeout start s1 in
          Run (res r) (final r)
            (DpoWrite ":ADER?" :: DpoRead reply :: TimeSleep 0.1%float :: trace r)
    end.
Proof.
  cbn [poll]. unfold dpo_query, dpo_write, dpo_read, py_print, sleep, time_now, emit, bind.
  cbn [res final trace app]. destruct (Py.int (dpo_reply w nr)) as [n|]; [|reflexivity].
  destruct (n =? 1)%Z; [reflexivity|].
  destruct (PrimFloat.ltb 0%float timeout).
  - destruct (PrimFloat.ltb timeout _); [reflexivity|].
    destruct (poll w fuel timeout start _) as [r s2 t2]. reflexivity.
  - destruct (poll w fuel timeout start _) as [r s2 t2]. reflexivity.
Qed.

(** When the loop leaves through the deadline, the stop command is its last
    effect: the clock reading comes before it and no read follows. *)
Lemma poll_deadline_last fuel timeout start :
  forall s,
    res (poll w fuel timeout start s) = Ret true ->
    exists t now,
      trace (poll w fuel timeout start s) =
        t ++ [TimeTime now; DpoWrite stop_command].
Proof.
  induction fuel as [|fuel IH]; intros [fs nr nt nd].
  - simpl. discriminate.
  - rewrite poll_step. cbv zeta.
    destruct (Py.int (dpo_reply w nr)) as [n|]; [|discriminate].
    destruct (n =? 1)%Z; [discriminate|].
    destruct (PrimFloat.ltb 0%float timeout).
    + destruct (PrimFloat.ltb timeout _).
      * intros _. exists [DpoWrite ":ADER?"; DpoRead (dpo_reply w nr);
                          TimeSleep 0.1%float], (time_time w nt). reflexivity.
      * cbn [res trace]. intros H. destruct (IH _ H) as (t & now & ->).
        exists (DpoWrite ":ADER?" :: DpoRead (dpo_reply w nr)
                :: TimeSleep 0.1%float :: TimeTime (time_time w nt) :: t), now.
        reflexivity.
    + cbn [res trace]. intros H. destruct (IH _ H) as (t & now & ->).
      exists (DpoWrite ":ADER?" :: DpoRead (dpo_reply w nr)
              :: TimeSleep 0.1%float :: t), now.
      reflexivity.
Qed.

(** When the loop returns on completion, its last effects are the read of a
    reply equal to 1 and the line announcing completion. *)
Lemma poll_completion_last fuel timeout start :
  forall s,
    res (poll w fuel timeout start s) = Ret false ->
    exists t reply,
      Py.int reply = Some 1%Z /\
      trace (poll w fuel timeout start s) =
        t ++ [DpoRead reply; Stdout "Acquisition complete"].
Proof.
  induction fuel as [|fuel IH]; intros [fs nr nt nd].
  - simpl. discriminate.
  - rewrite poll_step. cbv zeta.
    destruct (Py.int (dpo_reply w nr)) as [n|] eqn:En; [|discriminate].
    destruct (Z.eqb_spec n 1) as [->|Hn].
    + intros _. exists [DpoWrite ":ADER?"], (dpo_reply w nr). split; [exact En | reflexivity].
    + destruct (PrimFloat.ltb 0%float timeout).
      * destruct (PrimFloat.ltb timeout _); [discriminate|].
        cbn [res trace]. intros H. destruct (IH _ H) as (t & reply & Hr & ->).
        exists (DpoWrite ":ADER?" :: DpoRead (dpo_reply w nr)
                :: TimeSleep 0.1%float :: TimeTime (time_time w nt) :: t), reply.
        split; [exact Hr | reflexivity].
      * cbn [res trace]. intros H. destruct (IH _ H) as (t & reply & Hr & ->).
        exists (DpoWrite ":ADER?" :: DpoRead (dpo_reply w nr)
                :: TimeSleep 0.1%float :: t), reply.
        split; [exact Hr | reflexivity].
Qed.

(** With a positive timeout and an instrument that keeps answering integers
    other than 1, the loop leaves through the deadline at the first clock
    reading that exceeds it: that is its (k+1)-th turn, after k+1 polls. *)
Theorem deadline_ends_the_wait (timeout start : float) (fuel : nat) :
  PrimFloat.ltb 0%float timeout = true ->
  forall (s : State) (k : nat),
    (k < fuel)%nat ->
    (forall j, (j <= k)%nat ->
       exists n, Py.int (dpo_reply w (n_read s + j)) = Some n /\ n <> 1%Z) ->
    (forall j, (j < k)%nat ->
       PrimFloat.ltb timeout
         (PrimFloat.sub (time_time w (n_time s + j)) start) = false) ->
    PrimFloat.ltb timeout
      (PrimFloat.sub (time_time w (n_time s + k)) start) = true ->
    res (poll w fuel timeout start s) = Ret true /\
    n_read (final (poll w fuel timeout start s)) = (n_read s + S k)%nat /\
    commands (trace (poll w fuel timeout start s)) =
      repeat ":ADER?" (S k) ++ [stop_command].
Proof.
  intros Hpos. induction fuel as [|fuel IH]; intros [fs nr nt nd] k Hk Hrep Hbefore Hat.
  - lia.
  - rewrite poll_step. cbv zeta. cbn [n_read n_time] in *.
    destruct (Hrep 0%nat ltac:(lia)) as (n & Hn & Hne).
    rewrite Nat.add_0_r in Hn. rewrite Hn.
    destruct (Z.eqb_spec n 1); [contradiction|]. rewrite Hpos.
    destruct k as [|k].
    + rewrite Nat.add_0_r in Hat. rewrite Hat. cbn [res final trace n_read].
      repeat split. lia.
    + pose proof (Hbefore 0%nat ltac:(lia)) as H0. rewrite Nat.add_0_r in H0.
      rewrite H0. cbn [res final trace].
      destruct (IH (mkState fs (S nr) (S nt) nd) k) as (IH1 & IH2 & IH3).
      * lia.
      * intros j Hj. cbn [n_read].
        replace (S nr + j)%nat with (nr + S j)%nat by lia. apply Hrep. lia.
      * intros j Hj. cbn [n_time].
        replace (S nt + j)%nat with (nt + S j)%nat by lia. apply Hbefore. lia.
      * cbn [n_time]. replace (S nt + k)%nat with (nt + S k)%nat by lia. exact Hat.
      * split; [exact IH1|]. split; [rewrite IH2; cbn [n_read]; lia|].
        change (commands (?a :: ?b :: ?c :: ?d :: ?t)) with (":ADER?" :: commands t).
        rewrite IH3. reflexivity.
Qed.

(** C5, as the code has it.  Neither the halt nor the stop is a query: each
    is a bare write whose text ends in [*OPC?], and the reply is never read.
    In the configuration phase the effect after the halt is the next write;
    the phase reads one reply in all, the first the instrument has to offer,
    and prints it as the realised sample rate.  In the loop the stop is the
    last effect.  In a run that ends on the deadline the effects that follow
    the two commands are a write and the clock reading of line 281. *)
Theorem halt_and_stop_replies_not_read
    (a : Args) (fuel : nat) (timeout start : float) (s : State) :
  firstn 2 (trace (configure w a s)) =
    [DpoWrite stop_command; DpoWrite (":TIMebase:RANGe " +:+ str_float hScale)] /\
  replies (trace (configure w a s)) = [dpo_reply w (n_read s)] /\
  In (":ACQuire:SRATe:ANALog  " +:+ dpo_reply w (n_read s))
     (printed (trace (configure w a s))) /\
  match res (poll w fuel timeout start s) with
  | Ret true =>
      exists t now,
        trace (poll w fuel timeout start s) =
          t ++ [TimeTime now; DpoWrite stop_command]
  | _ => True
  end /\
  after_stop
    (trace (main (RT := Fixture.plain) Fixture.never_completes 5
              (with_timeout 0.05%float Fixture.defaults)
              (initial Fixture.counter_42))) =
    [Some (DpoWrite ":TIMebase:RANGe <float>"); Some (TimeTime 1002%float)].
Proof.
  split; [|split; [|split; [|split]]].
  - destruct s; reflexivity.
  - destruct s; reflexivity.
  - destruct s as [fs nr nt nd]. cbn [n_read].
    vm_compute. tauto.
  - destruct (res (poll w fuel timeout start s)) as [[|]| |] eqn:E; try exact I.
    apply poll_deadline_last, E.
  - vm_compute. reflexivity.
Qed.

(** A zero duration makes line 292 raise, on either path. *)
Lemma trigger_rate_zero_duration (a : Args) (st en : float) (ee : bool) (s : State) n :
  Py.float_of_int (numEvents a) = Some n ->
  PrimFloat.eqb (PrimFloat.sub en st) 0%float = true ->
  trigger_rate a st en ee s = Run (Raise Py.ZeroDivisionError) s [].
Proof.
  intros Hn Hz. unfold trigger_rate, Py.truediv. rewrite Hn, Hz. reflexivity.
Qed.

(** C8, as the code has it.  The division of line 292 is not guarded.  With
    the default arguments, an instrument that reports completion on the first
    poll and a clock that gives the same reading before and after the loop,
    the run ends with [ZeroDivisionError]: the status file is left at
    "writing", nothing is exported and the last effect is the closing of the
    status file. *)
Theorem zero_duration_run_raises :
  let r := main (RT := Fixture.plain) Fixture.instant 1 Fixture.defaults
             (initial Fixture.counter_42) in
  res r = Raise Py.ZeroDivisionError /\
  contents (files (final r)) run_log_path = "writing" +:+ Py.LF /\
  last (trace r) = Some (FileClose run_log_path) /\
  ~ In ":DISK:SEGMented ALL" (commands (trace r)) /\
  file_events run_log_path (trace r) =
    [ FileOpen run_log_path ModeW; FileWrite run_log_path "busy";
      FileClose run_log_path;
      FileOpen run_log_path ModeW; FileWrite run_log_path "writing";
      FileWrite run_log_path Py.LF; FileClose run_log_path ].
Proof.
  cbv zeta. split; [|split; [|split; [|split]]]; try (vm_compute; reflexivity).
  vm_compute. intuition discriminate.
Qed.

(** C7.  The export is lost whenever line 292 raises, although saving is
    requested and the loop has reached its end.  On completion: with the
    default arguments (save flag 1) and a run of zero duration, the loop
    prints "Acquisition complete", then the division raises and neither the
    all-segments directive nor the save command is sent.  On the deadline:
    with a timeout of 0.05 s and an event count that [float] cannot take,
    the loop sends the stop command, then the conversion raises, although the
    rate is not even reported on this path, and the stop command stays the
    last command the instrument receives. *)
Theorem export_lost_when_rate_raises :
  let a1 := Fixture.defaults in
  let r1 := main (RT := Fixture.plain) Fixture.instant 5 a1
              (initial Fixture.counter_42) in
  let a2 := with_numEvents (2 ^ 1024) (with_timeout 0.05%float Fixture.defaults) in
  let r2 := main (RT := Fixture.plain) Fixture.never_completes 5 a2
              (initial Fixture.counter_42) in
  (Py.truthy (savewaves a1) = true /\
   In (Stdout "Acquisition complete") (trace r1) /\
   res r1 = Raise Py.ZeroDivisionError /\
   ~ In ":DISK:SEGMented ALL" (commands (trace r1)) /\
   ~ In (save_command 42) (commands (trace r1))) /\
  (Py.truthy (savewaves a2) = true /\
   last (commands (trace r2)) = Some stop_command /\
   res r2 = Raise Py.OverflowError /\
   ~ In ":DISK:SEGMented ALL" (commands (trace r2)) /\
   ~ In (save_command 42) (commands (trace r2))).
Proof.
  cbv zeta. split.
  - split; [reflexivity|]. split; [vm_compute; tauto|].
    split; [vm_compute; reflexivity|].
    split; vm_compute; intuition discriminate.
  - split; [reflexivity|]. split; [vm_compute; reflexivity|].
    split; [vm_compute; reflexivity|].
    split; vm_compute; intuition discriminate.
Qed.

(** A run that returns normally read its run number in a state whose
    counter file is the one the run started with. *)
Lemma main_run_number fuel (a : Args) (s s' : State) g t :
  main w fuel a s = Run (Ret g) s' t ->
  exists s0 s0' t0,
    files s0 !! RunNumberFile = files s !! RunNumberFile /\
    configure_run_number a s0 = Run (Ret (runNumber g)) s0' t0.
Proof.
  intros H. unfold main in H.
  apply bind_Ret_inv in H. destruct H as (x & s1 & t1 & u1 & E1 & H & ->).
  apply bind_Ret_inv in H. destruct H as (d & s2 & t2 & u2 & E2 & H & ->).
  apply bind_Ret_inv in H. destruct H as (rn & s3 & t3 & u3 & E3 & H & ->).
  do 5 (inv_bind H). apply finish_inv in H.
  destruct H as (dd & q & sw & v1 & v3 & sx & v4 & -> & _).
  cbn [runNumber]. exists s2, s3, t3. split; [|exact E3].
  assert (K1 : keeps RunNumberFile (search_connect w))
    by (unfold_script; repeat keeps_step).
  assert (K2 : keeps RunNumberFile (configure_instrument w a))
    by (unfold_script; repeat keeps_step).
  specialize (K1 s). specialize (K2 s1). rewrite E1 in K1. rewrite E2 in K2.
  cbn [final] in K1, K2. congruence.
Qed.

(** C10.  An override other than -1, negative ones included, is the run
    number as it stands: the counter block has no effect, no statement of the
    run touches the counter file, and a run that returns normally holds the
    override as its run number.  With -1, and only then, the counter file
    decides: the block opens it, and when that succeeds reads it and closes
    it; the run number is the integer of its text, never the -1 itself unless
    the file holds it, and the block ends with an exception when the file is
    missing, may not be opened or holds no integer.  A run that returns
    normally with -1 holds the integer of the counter file as its run
    number. *)
Theorem override_used_verbatim (fuel : nat) (a : Args) (s : State) :
  (runNumberParam a <> (-1)%Z ->
   configure_run_number a s = Run (Ret (runNumberParam a)) s [] /\
   Forall (fun e => touches RunNumberFile e = false) (trace (main w fuel a s)) /\
   (forall g, res (main w fuel a s) = Ret g -> runNumber g = runNumberParam a)) /\
  (runNumberParam a = (-1)%Z ->
   configure_run_number a s =
     match files s !! RunNumberFile with
     | Some (Data text) =>
         Run (match Py.int text with
              | Some n => Ret n
              | None => Raise Py.ValueError
              end)
             s [FileOpen RunNumberFile ModeR; FileRead RunNumberFile;
                FileClose RunNumberFile]
     | Some Denied => Run (Raise Py.PermissionError) s [FileOpen RunNumberFile ModeR]
     | None => Run (Raise Py.FileNotFoundError) s [FileOpen RunNumberFile ModeR]
     end /\
   (forall g, res (main w fuel a s) = Ret g ->
      exists text, files s !! RunNumberFile = Some (Data text) /\
                   Py.int text = Some (runNumber g))).
Proof.
  split.
  - intros Ha. split; [apply override_skips_counter, Ha|].
    split; [apply override_never_touches_counter, Ha|].
    intros g H. destruct (main w fuel a s) as [r s' t] eqn:E. simpl in H. subst r.
    apply main_inv in E.
    destruct E as (rn & st & en & ee & s1 & t1 & t2 & (s0 & s0' & t0 & Ern) & E & _).
    rewrite (override_skips_counter a s0 Ha) in Ern. injection Ern as <- _ _.
    apply finish_inv in E.
    destruct E as (d & q & s2 & u1 & u3 & s4 & u4 & -> & _). reflexivity.
  - intros Ha.
    assert (Hc : forall s0 : State,
              configure_run_number a s0 =
                match files s0 !! RunNumberFile with
                | Some (Data text) =>
                    Run (match Py.int text with
                         | Some n => Ret n
                         | None => Raise Py.ValueError
                         end)
                        s0 [FileOpen RunNumberFile ModeR; FileRead RunNumberFile;
                            FileClose RunNumberFile]
                | Some Denied =>
                    Run (Raise Py.PermissionError) s0 [FileOpen RunNumberFile ModeR]
                | None =>
                    Run (Raise Py.FileNotFoundError) s0 [FileOpen RunNumberFile ModeR]
                end).
    { intros s0. destruct (files s0 !! RunNumberFile) as [[|text]|] eqn:Hf.
      - unfold configure_run_number. rewrite Ha. simpl.
        destruct s0 as [fs nr nt nd]. simpl in Hf. unfold bind, open_.
        rewrite Hf. reflexivity.
      - exact (counter_read a s0 text Ha Hf).
      - unfold configure_run_number. rewrite Ha. simpl.
        destruct s0 as [fs nr nt nd]. simpl in Hf. unfold bind, open_.
        rewrite Hf. reflexivity. }
    split; [apply Hc|].
    intros g H. destruct (main w fuel a s) as [r s' t] eqn:E. simpl in H. subst r.
    apply main_run_number in E. destruct E as (s0 & s0' & t0 & Hs0 & Ern).
    rewrite Hc, Hs0 in Ern.
    destruct (files s !! RunNumberFile) as [[|text]|]; try discriminate Ern.
    exists text. split; [reflexivity|].
    destruct (Py.int text); [|discriminate Ern]. injection Ern as -> _ _. reflexivity.
Qed.

End Properties.

(** ** The theorems at the fixtures *)

(** C2 at a run that ended on completion after one second: the report line
    carries the rate, and the export lines follow. *)
Lemma trigger_rate_reported_completed :
  res (finish (RT := Fixture.plain) Fixture.completes_after_3 Fixture.defaults
         42 1000%float 1001%float false (mkState ∅ 6 2 2)) =
    Ret {| runNumber := 42; start := 1000%float; end_ := 1001%float;
           end_early := false; duration := 1%float; trigRate := 1000%float |} /\
  printed (trace (finish (RT := Fixture.plain) Fixture.completes_after_3
                    Fixture.defaults 42 1000%float 1001%float false
                    (mkState ∅ 6 2 2))) =
    [ Py.LF +:+ "Run duration: <float> s. Trigger rate: <float> Hz" +:+ Py.LF;
      "+1"; "Ready to save all segments"; "+1"; "Saved Channel 1 waveform" ].
Proof.
  assert (H : res (finish (RT := Fixture.plain) Fixture.completes_after_3
                     Fixture.defaults 42 1000%float 1001%float false
                     (mkState ∅ 6 2 2)) =
              Ret {| runNumber := 42; start := 1000%float; end_ := 1001%float;
                     end_early := false; duration := 1%float;
                     trigRate := 1000%float |})
    by (vm_compute; reflexivity).
  split; [exact H|].
  exact (proj2 (proj2 (proj2
    (trigger_rate_reported (RT := Fixture.plain) Fixture.completes_after_3
       Fixture.defaults 42 1000%float 1001%float false (mkState ∅ 6 2 2) _ H)))).
Defined.

(** [int] on white space: the ASCII white space and, of Latin-1, NEL and
    NBSP are skipped on both sides; the separators 28 to 31 are not, before
    or after the digits. *)
Example int_white_space :
  Py.int (" " +:+ Py.TAB +:+ "42" +:+ Py.CR +:+ Py.LF) = Some 42%Z /\
  Py.int (String "133"%char (String "160"%char "-7")) = Some (-7)%Z /\
  Py.int (String "028"%char "1") = None /\
  Py.int ("42" +:+ String "031"%char EmptyString) = None /\
  Py.int "+1_000" = Some 1000%Z /\
  Py.int "4.0E+09" = None.
Proof. repeat split; reflexivity. Qed.

(** [int] on long numerals: 4300 digits convert, 4301 do not, leading zeros
    counted. *)
Example int_digit_limit :
  Py.int (Nat.iter 4300 (String "1") EmptyString) <> None /\
  Py.int (Nat.iter 4301 (String "1") EmptyString) = None /\
  Py.int (Nat.iter 4300 (String "0") "7") = None.
Proof.
  split; [|split]; vm_compute; congruence.
Qed.

(** C3 at the run of the default arguments against an instrument that
    completes on the fourth poll. *)
Lemma status_sequence_completed :
  res (main (RT := Fixture.plain) Fixture.completes_after_3 10 Fixture.defaults
         (initial Fixture.counter_42)) =
    Ret {| runNumber := 42; start := 1000%float; end_ := 1001%float;
           end_early := false; duration := 1%float; trigRate := 1000%float |} /\
  file_events run_log_path
    (trace (main (RT := Fixture.plain) Fixture.completes_after_3 10
              Fixture.defaults (initial Fixture.counter_42))) =
    [ FileOpen run_log_path ModeW; FileWrite run_log_path "busy";
      FileClose run_log_path;
      FileOpen run_log_path ModeW; FileWrite run_log_path "writing";
      FileWrite run_log_path Py.LF; FileClose run_log_path;
      FileOpen run_log_path ModeW; FileWrite run_log_path "ready";
      FileWrite run_log_path Py.LF; FileClose run_log_path ].
Proof.
  assert (H : res (main (RT := Fixture.plain) Fixture.completes_after_3 10
                     Fixture.defaults (initial Fixture.counter_42)) =
              Ret {| runNumber := 42; start := 1000%float; end_ := 1001%float;
                     end_early := false; duration := 1%float;
                     trigRate := 1000%float |})
    by (vm_compute; reflexivity).
  split; [exact H|].
  exact (proj1
    (status_sequence (RT := Fixture.plain) Fixture.completes_after_3 10
       Fixture.defaults (initial Fixture.counter_42) _ H)).
Defined.

(** C4 at the default timeout of -1: from the state the loop starts in, the
    instrument's fourth reply is the first equal to 1, and the loop returns
    with [end_early] false. *)
Lemma unbounded_wait_completes_on_fourth_poll :
  PrimFloat.leb (-1)%float 0%float = true /\
  res (poll Fixture.completes_after_3 10 (-1)%float 1000%float (mkState ∅ 2 1 2))
    = Ret false /\
  ~ In stop_command
      (commands (trace (poll Fixture.completes_after_3 10 (-1)%float 1000%float
                          (mkState ∅ 2 1 2)))).
Proof.
  assert (H : PrimFloat.leb (-1)%float 0%float = true) by reflexivity.
  pose proof (unbounded_wait_never_times_out Fixture.completes_after_3 10
                (-1)%float 1000%float (mkState ∅ 2 1 2) H) as T.
  cbv zeta in T. destruct T as ((_ & Hstop & _) & _ & Hdone & _).
  split; [exact H|]. split; [|exact Hstop].
  apply (Hdone 3%nat); [lia | reflexivity |].
  intros j Hj. exists 0%Z.
  destruct j as [|[|[|j]]]; [split; [reflexivity | discriminate].. | lia].
Defined.

(** [export_follows_save_flag] at a run that ended on the deadline after
    three seconds, with the save flag of the default arguments: the export
    still takes place. *)
Lemma export_after_deadline :
  openable run_log_path (∅ : gmap string fnode) /\
  Py.float_of_int 1000 = Some 1000%float /\
  Py.truediv 1000%float (PrimFloat.sub 1003%float 1000%float) =
    Some (PrimFloat.div 1000%float 3%float) /\
  commands (trace (finish (RT := Fixture.plain) Fixture.never_completes
                     Fixture.defaults 42 1000%float 1003%float true
                     (mkState ∅ 5 3 2))) =
    [ ":DISK:SEGMented ALL"; "*OPC?";
      ":DISK:SAVE:WAVeform CHANnel1 ," +:+ Py.DQ
        +:+ "C:\LCE_BTL_Module\Wavenewscope_CH1_run42" +:+ Py.DQ +:+ ",BIN,ON";
      "*OPC?" ].
Proof.
  assert (H1 : openable run_log_path (∅ : gmap string fnode))
    by (unfold openable; rewrite lookup_empty; discriminate).
  assert (H2 : Py.float_of_int 1000 = Some 1000%float) by reflexivity.
  assert (H3 : Py.truediv 1000%float (PrimFloat.sub 1003%float 1000%float) =
               Some (PrimFloat.div 1000%float 3%float)) by reflexivity.
  split; [exact H1|]. split; [exact H2|]. split; [exact H3|].
  exact (proj1 (proj2
    (export_follows_save_flag (RT := Fixture.plain) Fixture.never_completes
       Fixture.defaults 42 1000%float 1003%float true (mkState ∅ 5 3 2)
       1000%float (PrimFloat.div 1000%float 3%float) H1 H2 H3))).
Defined.

(** C6 at the default arguments and a counter file holding 42. *)
Lemma run_number_from_counter :
  res (configure_run_number Fixture.defaults (initial Fixture.counter_42)) = Ret 42%Z.
Proof.
  apply (proj1 (run_number_resolution (RT := Fixture.plain)
                  Fixture.completes_after_3 10 Fixture.defaults
                  (initial Fixture.counter_42)));
    reflexivity.
Defined.

(** C10 at the override -2, which is used as it stands, and at the
    sentinel -1 with a counter file holding 42, which is read. *)
Lemma override_minus_two :
  configure_run_number (with_runNumber (-2) Fixture.defaults)
    (initial Fixture.counter_42) =
    Run (Ret (-2)%Z) (initial Fixture.counter_42) [] /\
  configure_run_number Fixture.defaults (initial Fixture.counter_42) =
    Run (Ret 42%Z) (initial Fixture.counter_42)
        [FileOpen RunNumberFile ModeR; FileRead RunNumberFile;
         FileClose RunNumberFile].
Proof.
  split.
  - apply (proj1 (override_used_verbatim (RT := Fixture.plain)
                    Fixture.completes_after_3 10
                    (with_runNumber (-2) Fixture.defaults)
                    (initial Fixture.counter_42))).
    discriminate.
  - exact (proj1 (proj2 (override_used_verbatim (RT := Fixture.plain)
                           Fixture.completes_after_3 10 Fixture.defaults
                           (initial Fixture.counter_42)) eq_refl)).
Defined.

(** [deadline_ends_the_wait] at a timeout of 0.05 s: the first clock
    reading of the loop already exceeds it. *)
Lemma deadline_at_first_check :
  PrimFloat.ltb 0%float 0.05%float = true /\
  res (poll Fixture.never_completes 5 0.05%float 1000%float (mkState ∅ 2 1 2))
    = Ret true.
Proof.
  assert (H : PrimFloat.ltb 0%float 0.05%float = true) by reflexivity.
  split; [exact H|].
  apply (deadline_ends_the_wait Fixture.never_completes 0.05%float 1000%float 5 H
           (mkState ∅ 2 1 2) 0%nat).
  - lia.
  - intros j Hj. exists 0%Z. replace j with 0%nat by lia.
    split; [reflexivity | discriminate].
  - intros j Hj. lia.
  - reflexivity.
Defined.

(** The first scenario of the specification: the default arguments, an
    instrument that completes after three unsuccessful polls.  The run ends on
    completion after four polls, sends one save command, for channel 1, with
    the run number read from the counter, and leaves the status at "ready". *)
Example scenario_completed :
  let r := main (RT := Fixture.plain) Fixture.completes_after_3 10
             Fixture.defaults (initial Fixture.counter_42) in
  res r = Ret {| runNumber := 42; start := 1000%float; end_ := 1001%float;
                 end_early := false; duration := 1%float;
                 trigRate := 1000%float |} /\
  skipn 16 (commands (trace r)) =
    [ ":CDISplay"; "*CLS;:SINGle"; ":ADER?"; ":ADER?"; ":ADER?"; ":ADER?";
      ":DISK:SEGMented ALL"; "*OPC?"; save_command 42; "*OPC?" ] /\
  contents (files (final r)) run_log_path = "ready" +:+ Py.LF.
Proof. cbv zeta. repeat split; vm_compute; reflexivity. Qed.

(** The second scenario: a timeout of 0.05 s and an instrument that never
    completes.  The first deadline check finds the timeout exceeded; the run
    ends on the deadline, the export still takes place, and the report line
    gives the rate as unknown. *)
Example scenario_timed_out :
  let r := main (RT := Fixture.plain) Fixture.never_completes 5
             (with_timeout 0.05%float Fixture.defaults)
             (initial Fixture.counter_42) in
  res r = Ret {| runNumber := 42; start := 1000%float; end_ := 1002%float;
                 end_early := true; duration := 2%float;
                 trigRate := 500%float |} /\
  skipn 16 (commands (trace r)) =
    [ ":CDISplay"; "*CLS;:SINGle"; ":ADER?"; stop_command;
      ":DISK:SEGMented ALL"; "*OPC?"; save_command 42; "*OPC?" ] /\
  skipn 24 (printed (trace r)) =
    [ Py.LF +:+ "Run duration: <float> s. Trigger rate: unknown" +:+ Py.LF;
      "+0"; "Ready to save all segments"; "+0"; "Saved Channel 1 waveform" ] /\
  contents (files (final r)) run_log_path = "ready" +:+ Py.LF.
Proof. cbv zeta. repeat split; vm_compute; reflexivity. Qed.

(** ** Further properties of the script *)

Lemma append_assoc (a b c : string) : (a +:+ b) +:+ c = a +:+ (b +:+ c).
Proof.
  induction a as [|ch a IH]; [reflexivity|].
  change (String ch ((a +:+ b) +:+ c) = String ch (a +:+ (b +:+ c))).
  rewrite IH. reflexivity.
Qed.

Lemma append_empty_r (a : string) : a +:+ EmptyString = a.
Proof.
  induction a as [|ch a IH]; [reflexivity|].
  change (String ch (a +:+ EmptyString) = String ch a).
  rewrite IH. reflexivity.
Qed.

Lemma written_app path (t u : list event) :
  written path (t ++ u) = written path t +:+ written path u.
Proof.
  induction t as [|e t IH]; [reflexivity|].
  cbn [app written]. destruct e as [| | | | | | | | | |p data|]; try exact IH.
  destruct (String.eqb p path); cbv iota;
    [rewrite IH, append_assoc; reflexivity | exact IH].
Qed.

Section Deadline.

Context (w : World).

(** The loop leaves through the deadline only with a positive timeout, and
    only straight after a poll that read an integer other than 1, the sleep
    of line 274 and a clock reading further from the start than the timeout;
    the stop command is then its last effect. *)
Theorem deadline_exit_characterised (fuel : nat) (timeout start : float) :
  forall s : State,
    res (poll w fuel timeout start s) = Ret true ->
    PrimFloat.ltb 0%float timeout = true /\
    exists t reply n now,
      Py.int reply = Some n /\ n <> 1%Z /\
      PrimFloat.ltb timeout (PrimFloat.sub now start) = true /\
      trace (poll w fuel timeout start s) =
        t ++ [DpoWrite ":ADER?"; DpoRead reply; TimeSleep 0.1%float;
              TimeTime now; DpoWrite stop_command].
Proof.
  induction fuel as [|fuel IH]; intros [fs nr nt nd].
  - simpl. discriminate.
  - rewrite poll_step. cbv zeta.
    destruct (Py.int (dpo_reply w nr)) as [n|] eqn:En; [|discriminate].
    destruct (Z.eqb_spec n 1) as [->|Hn]; [discriminate|].
    destruct (PrimFloat.ltb 0%float timeout) eqn:Hpos.
    + destruct (PrimFloat.ltb timeout _) eqn:Hlate.
      * intros _. split; [reflexivity|].
        exists [], (dpo_reply w nr), n, (time_time w nt). auto.
      * cbn [res trace]. intros H.
        destruct (IH _ H) as (_ & t & reply & n' & now & H1 & H2 & H3 & ->).
        split; [reflexivity|].
        exists (DpoWrite ":ADER?" :: DpoRead (dpo_reply w nr)
                :: TimeSleep 0.1%float :: TimeTime (time_time w nt) :: t),
               reply, n', now. auto.
    + cbn [res trace]. intros H.
      destruct (IH _ H) as (Hp & _). discriminate Hp.
Qed.


End Deadline.

(** *** Statements that only add to the end of a file *)

Section Appends.

Context (path : string).

Local Abbreviation appends := (appends path).

Lemma appends_ret {A} (a : A) : appends (ret a).
Proof. intros s. simpl. symmetry. apply append_empty_r. Qed.

Lemma appends_raise {A} e : appends (@raise A e).
Proof. intros s. simpl. symmetry. apply append_empty_r. Qed.

Lemma appends_hang {A} : appends (@hang A).
Proof. intros s. simpl. symmetry. apply append_empty_r. Qed.

Lemma appends_emit e : written path [e] = EmptyString -> appends (emit e).
Proof. intros H s. cbn [emit final trace]. rewrite H. symmetry. apply append_empty_r. Qed.

Lemma appends_bind {A B} (m : M A) (k : A -> M B) :
  appends m -> (forall a, appends (k a)) -> appends (bind m k).
Proof.
  intros Hm Hk s. unfold bind. specialize (Hm s).
  destruct (m s) as [[a|e|] s1 t1]; cbn [final trace] in *; try assumption.
  specialize (Hk a s1). destruct (k a s1) as [r s2 t2]; cbn [final trace] in *.
  rewrite Hk, Hm, written_app, append_assoc. reflexivity.
Qed.

Context (w : World).

Lemma appends_dpo_read : appends (dpo_read w).
Proof. intros [fs nr nt nd]. simpl. symmetry. apply append_empty_r. Qed.

Lemma appends_time_now : appends (time_now w).
Proof. intros [fs nr nt nd]. simpl. symmetry. apply append_empty_r. Qed.

Lemma appends_date_now : appends (date_now w).
Proof. intros [fs nr nt nd]. simpl. symmetry. apply append_empty_r. Qed.

Lemma appends_file_read p : appends (file_read p).
Proof. intros s. simpl. symmetry. apply append_empty_r. Qed.

(** Opening in the default mode or in ["a+"] keeps the text of every file. *)
Lemma appends_open_keep p mode : mode <> ModeW -> appends (open_ p mode).
Proof.
  intros Hm [fs nr nt nd]. unfold open_, contents.
  destruct (fs !! p) as [[|text]|] eqn:E, mode; try contradiction;
    cbn [final trace files written]; rewrite ?append_empty_r; try reflexivity.
  destruct (decide (p = path)) as [->|Hne].
  - rewrite lookup_insert_eq, E. reflexivity.
  - rewrite lookup_insert_ne by exact Hne. reflexivity.
Qed.

(** Opening another file, in whatever mode, keeps the text of this one. *)
Lemma appends_open_other p mode : p <> path -> appends (open_ p mode).
Proof.
  intros Hp [fs nr nt nd]. unfold open_, contents.
  destruct (fs !! p) as [[|text]|], mode;
    cbn [final trace files written]; rewrite ?append_empty_r;
    rewrite ?lookup_insert_ne by exact Hp; reflexivity.
Qed.

Lemma appends_file_write p data : appends (file_write p data).
Proof.
  intros [fs nr nt nd]. unfold file_write, contents.
  cbn [final trace files written].
  destruct (String.eqb_spec p path) as [->|Hne].
  - rewrite lookup_partial_alter_eq, append_empty_r.
    destruct (fs !! path) as [[|text]|]; reflexivity.
  - rewrite lookup_partial_alter_ne by exact Hne. rewrite append_empty_r. reflexivity.
Qed.

End Appends.

Ltac appends_step :=
  first
    [ apply appends_bind; [|intros ?]
    | apply appends_ret | apply appends_raise | apply appends_hang
    | apply appends_emit; reflexivity
    | apply appends_dpo_read | apply appends_time_now | apply appends_date_now
    | apply appends_file_read | apply appends_file_write
    | apply appends_open_keep; discriminate
    | apply appends_open_other; discriminate
    | match goal with
      | |- appends _ (if ?b then _ else _) => destruct b
      | |- appends _ (match ?x with _ => _ end) => destruct x
      end ].

Section Confinement.

Context {RT : Runtime} (w : World).

Lemma appends_poll path fuel timeout start :
  appends path (poll w fuel timeout start).
Proof.
  induction fuel as [|fuel IH]; simpl; [apply appends_hang|].
  unfold dpo_query, dpo_write, py_print, sleep.
  repeat (first [exact IH | appends_step]).
Qed.

(** The logbook is only ever added to: however a run ends, the logbook
    holds what it held before, followed by what the run wrote to it. *)
Theorem logbook_append_only (fuel : nat) (a : Args) (s : State) :
  contents (files (final (main w fuel a s))) log_path =
    contents (files s) log_path +:+ written log_path (trace (main w fuel a s)).
Proof.
  revert s. change (appends log_path (main w fuel a)).
  unfold_script.
  repeat (first [apply appends_poll | appends_step]).
Qed.

(** The counter file, the logbook and the status file are the only files a
    run touches, and every other file of the store is left as it was. *)
Theorem file_effects_confined (fuel : nat) (a : Args) (s : State) (p : string) :
  p <> RunNumberFile -> p <> log_path -> p <> run_log_path ->
  Forall (fun e => touches p e = false) (trace (main w fuel a s)) /\
  files (final (main w fuel a s)) !! p = files s !! p.
Proof.
  intros H1 H2 H3.
  assert (E1 : String.eqb RunNumberFile p = false) by (apply String.eqb_neq; congruence).
  assert (E2 : String.eqb log_path p = false) by (apply String.eqb_neq; congruence).
  assert (E3 : String.eqb run_log_path p = false) by (apply String.eqb_neq; congruence).
  split.
  - revert s. change (always (fun e => touches p e = false) (main w fuel a)).
    unfold_script.
    repeat (first [apply always_poll | always_step]);
      intros; cbv beta;
      lazymatch goal with
      | |- touches _ ?e = false =>
          lazymatch e with
          | context [RunNumberFile] => exact E1
          | context [log_path] => exact E2
          | context [run_log_path] => exact E3
          | _ => reflexivity
          end
      end.
  - revert s. change (keeps p (main w fuel a)).
    unfold_script.
    repeat (first [apply keeps_poll | keeps_step]); congruence.
Qed.

End Confinement.

(** *** What a statement shows when it does not return *)

Section Unfolds.

Context {X : Type} (f : event -> list X).

Local Abbreviation unfolds := (unfolds f).

Lemma unfolds_ret {A} (a : A) : unfolds (ret a) [].
Proof. intros s. reflexivity. Qed.

Lemma unfolds_raise {A} e xs : unfolds (@raise A e) xs.
Proof. intros s. exists xs. reflexivity. Qed.

Lemma unfolds_hang {A} xs : unfolds (@hang A) xs.
Proof. intros s. exists xs. reflexivity. Qed.

Lemma unfolds_emit e : unfolds (emit e) (f e).
Proof. intros s. simpl. apply app_nil_r. Qed.

Lemma unfolds_quiet {A} (m : M A) : always (fun e => f e = []) m -> unfolds m [].
Proof.
  intros H s.
  assert (E : flat_map f (trace (m s)) = []).
  { specialize (H s). induction H as [|e t He _ IH]; simpl; [reflexivity|].
    rewrite He. exact IH. }
  rewrite E. destruct (res (m s)); [reflexivity | exists [] | exists []]; reflexivity.
Qed.

Lemma unfolds_bind {A B} (m : M A) (k : A -> M B) xs ys :
  unfolds m xs -> (forall a, unfolds (k a) ys) -> unfolds (bind m k) (xs ++ ys).
Proof.
  intros Hm Hk s. unfold bind. specialize (Hm s).
  destruct (m s) as [[a|e|] s1 t1]; cbn [res trace] in *.
  - specialize (Hk a s1). destruct (k a s1) as [[b|e|] s2 t2]; cbn [res trace] in *;
      rewrite flat_map_app, Hm.
    + rewrite Hk. reflexivity.
    + destruct Hk as [rest <-]. exists rest. rewrite app_assoc. reflexivity.
    + destruct Hk as [rest <-]. exists rest. rewrite app_assoc. reflexivity.
  - destruct Hm as [rest <-]. exists (rest ++ ys). rewrite app_assoc. reflexivity.
  - destruct Hm as [rest <-]. exists (rest ++ ys). rewrite app_assoc. reflexivity.
Qed.

Lemma unfolds_eq {A} (m : M A) xs ys : unfolds m xs -> xs = ys -> unfolds m ys.
Proof. intros H <-. exact H. Qed.

(** An open performs its one effect whether it succeeds or raises. *)
Lemma unfolds_open path mode : unfolds (open_ path mode) (f (FileOpen path mode)).
Proof.
  intros [fs nr nt nd]. unfold open_.
  destruct (fs !! path) as [[|text]|], mode; cbn [res trace flat_map];
    rewrite app_nil_r; try reflexivity; exists []; apply app_nil_r.
Qed.

Lemma unfolds_file_write path data :
  unfolds (file_write path data) (f (FileWrite path data)).
Proof. intros [fs nr nt nd]. simpl. apply app_nil_r. Qed.

Lemma unfolds_file_read path : unfolds (file_read path) (f (FileRead path)).
Proof. intros s. simpl. apply app_nil_r. Qed.

End Unfolds.

Ltac quiet_events :=
  intros; cbv beta; reflexivity.

Ltac unfolds_step w :=
  first
    [ eapply unfolds_bind; [|intros ?]
    | apply unfolds_ret | apply unfolds_raise | apply unfolds_hang
    | apply unfolds_emit | apply unfolds_open
    | apply unfolds_file_write | apply unfolds_file_read
    | apply unfolds_quiet;
      first [ apply always_emit | apply always_file_write | apply always_file_read
            | apply (always_dpo_read _ w) | apply (always_time_now _ w)
            | apply (always_date_now _ w) | apply (always_poll w) ];
      quiet_events
    | match goal with
      | |- unfolds _ (if ?b then _ else _) _ => destruct b
      | |- unfolds _ (match ?x with _ => _ end) _ => destruct x
      end ].

Section Order.

Context {RT : Runtime} (w : World).

(** However a run ends, its milestones are an initial part of this
    sequence, and all of it when the run returns normally: the logbook is
    opened and closed; "busy" is written; the acquisition is armed;
    "writing" and a newline are written; the export is prepared, if saving is
    on; "ready" and a newline are written; the session is closed.  So the
    acquisition is never armed before "busy" is published, "writing" never
    precedes the arming, and "ready" never precedes the export. *)
Theorem milestones_in_order (fuel : nat) (a : Args) (s : State) :
  match res (main w fuel a s) with
  | Ret _ => milestones (trace (main w fuel a s)) = all_milestones a
  | _ => exists rest, milestones (trace (main w fuel a s)) ++ rest = all_milestones a
  end.
Proof.
  revert s. change (unfolds milestone (main w fuel a) (all_milestones a)).
  unfold all_milestones. unfold_script.
  destruct (Py.truthy (savewaves a));
    (eapply unfolds_eq; [repeat (unfolds_step w) | reflexivity]).
Qed.

End Order.

Section Closing.

Context {RT : Runtime} (w : World).

Lemma unless_returned_bind (P : event -> Prop) {A B} (m : M A) (k : A -> M B) :
  always P m -> (forall a, unless_returned P (k a)) -> unless_returned P (bind m k).
Proof.
  intros Hm Hk s Hn. unfold bind in *. specialize (Hm s).
  destruct (m s) as [[a|e|] s1 t1]; cbn [res trace] in *; try assumption.
  specialize (Hk a s1). destruct (k a s1) as [r s2 t2]; cbn [res trace] in *.
  apply Forall_app; split; [assumption | apply Hk; exact Hn].
Qed.

Lemma unless_returned_total (P : event -> Prop) {A} (m : M A) :
  (forall s, exists a, res (m s) = Ret a) -> unless_returned P m.
Proof. intros H s Hn. destruct (H s) as [a Ha]. destruct (Hn a Ha). Qed.

Lemma session_open_unless_returned fuel (a : Args) :
  unless_returned (fun e => e <> DpoClose) (main w fuel a).
Proof.
  unfold main.
  do 8 (apply unless_returned_bind;
        [unfold_script;
         repeat (first [apply always_poll | always_step]);
         intros; cbv beta; discriminate
        | intros ?]).
  unfold finish.
  do 4 (apply unless_returned_bind;
        [unfold_script;
         repeat (first [apply always_poll | always_step]);
         intros; cbv beta; discriminate
        | intros ?]).
  apply unless_returned_total. intros s. eexists. reflexivity.
Qed.

(** The session is closed in exactly the runs that return normally, as their
    last effect: a run that ends with an exception, wherever it is raised,
    leaves the session open. *)
Theorem session_closed_iff_returned (fuel : nat) (a : Args) (s : State) :
  (In DpoClose (trace (main w fuel a s)) <-> exists g, res (main w fuel a s) = Ret g) /\
  (forall g, res (main w fuel a s) = Ret g ->
     last (trace (main w fuel a s)) = Some DpoClose).
Proof.
  assert (Hlast : forall g, res (main w fuel a s) = Ret g ->
                            last (trace (main w fuel a s)) = Some DpoClose).
  { intros g H. destruct (main w fuel a s) as [r s' t] eqn:E. simpl in H. subst r.
    apply main_inv in E.
    destruct E as (rn & st & en & ee & s1 & t1 & t2 & _ & E & ->).
    apply finish_inv in E.
    destruct E as (d & q & s2 & u1 & u3 & s4 & u4 & _ & _ & _ & _ & _ & _ & ->).
    cbn [trace]. rewrite !app_assoc. apply last_snoc. }
  split; [|exact Hlast]. split.
  - intros Hin. destruct (res (main w fuel a s)) as [g|e|] eqn:E; [eauto | |].
    + pose proof (session_open_unless_returned fuel a s) as H.
      rewrite Forall_forall in H. exfalso. apply (H ltac:(intros g; rewrite E; discriminate) DpoClose).
      * apply list_elem_of_In. exact Hin.
      * reflexivity.
    + pose proof (session_open_unless_returned fuel a s) as H.
      rewrite Forall_forall in H. exfalso. apply (H ltac:(intros g; rewrite E; discriminate) DpoClose).
      * apply list_elem_of_In. exact Hin.
      * reflexivity.
  - intros [g Hg]. specialize (Hlast g Hg).
    apply list_elem_of_In. apply last_Some_elem_of. exact Hlast.
Qed.

End Closing.

(** *** Where an exception can come from *)

Lemma bind_Raise_inv {A B} (m : M A) (k : A -> M B) s e s2 t :
  bind m k s = Run (Raise e) s2 t ->
  m s = Run (Raise e) s2 t \/
  exists a s1 t1 t2,
    m s = Run (Ret a) s1 t1 /\ k a s1 = Run (Raise e) s2 t2 /\ t = t1 ++ t2.
Proof.
  unfold bind. destruct (m s) as [[a|e'|] s1 t1]; try discriminate.
  - destruct (k a s1) as [r s2' t2] eqn:E. intros [= -> -> <-]. right. eauto 10.
  - intros [= -> -> ->]. left. reflexivity.
Qed.

Section Never.

Context (E : Py.exn -> Prop).

Local Abbreviation never := (never_raises E).

Lemma never_ret {A} (a : A) : never (ret a).
Proof. intros s e. discriminate. Qed.

Lemma never_hang {A} : never (@hang A).
Proof. intros s e. discriminate. Qed.

Lemma never_emit ev : never (emit ev).
Proof. intros s e. discriminate. Qed.

Lemma never_raise {A} e : ~ E e -> never (@raise A e).
Proof. intros H s e' [= <-]. exact H. Qed.

Lemma never_bind {A B} (m : M A) (k : A -> M B) :
  never m -> (forall a, never (k a)) -> never (bind m k).
Proof.
  intros Hm Hk s e. unfold bind. specialize (Hm s).
  destruct (m s) as [[a|e'|] s1 t1]; cbn [res] in *.
  - specialize (Hk a s1). destruct (k a s1) as [r s2 t2]; cbn [res] in *. apply Hk.
  - intros [= <-]. apply (Hm e'). reflexivity.
  - discriminate.
Qed.

Lemma never_file_read path : never (file_read path).
Proof. intros s e. discriminate. Qed.

Lemma never_file_write path data : never (file_write path data).
Proof. intros [fs nr nt nd] e. discriminate. Qed.

Lemma never_open path mode :
  ~ E Py.PermissionError -> ~ E Py.FileNotFoundError -> never (open_ path mode).
Proof.
  intros H1 H2 [fs nr nt nd] e. unfold open_.
  destruct (fs !! path) as [[|text]|], mode; cbn [res];
    intros [= <-]; assumption.
Qed.

Context (w : World).

Lemma never_dpo_read : never (dpo_read w).
Proof. intros [fs nr nt nd] e. discriminate. Qed.

Lemma never_time_now : never (time_now w).
Proof. intros [fs nr nt nd] e. discriminate. Qed.

Lemma never_date_now : never (date_now w).
Proof. intros [fs nr nt nd] e. discriminate. Qed.

End Never.

Ltac never_step w :=
  first
    [ apply never_bind; [|intros ?]
    | apply never_ret | apply never_hang | apply never_emit
    | apply never_file_read | apply never_file_write
    | apply (never_dpo_read _ w) | apply (never_time_now _ w)
    | apply (never_date_now _ w)
    | apply never_open
    | apply never_raise
    | match goal with
      | |- never_raises _ (if ?b then _ else _) => destruct b
      | |- never_raises _ (match ?x with _ => _ end) => destruct x
      end ].

Section Failure.

Context {RT : Runtime} (w : World).

Lemma never_poll (E : Py.exn -> Prop) fuel timeout start :
  ~ E Py.ValueError -> never_raises E (poll w fuel timeout start).
Proof.
  intros H. induction fuel as [|fuel IH]; simpl; [apply never_hang|].
  unfold dpo_query, dpo_write, py_print, sleep.
  repeat (first [exact IH | never_step w]); exact H.
Qed.

Ltac not_arithmetic :=
  unfold_script;
  repeat (first [apply never_poll | never_step w]);
  let X := fresh "X" in intros [X|X]; discriminate X.

(** A statement that raises and cannot raise [e] did return. *)
Lemma returned_before {A B} (m : M A) (k : A -> M B) (E : Py.exn -> Prop) s e s2 t :
  never_raises E m -> E e ->
  bind m k s = Run (Raise e) s2 t ->
  exists a s1 t1 t2,
    m s = Run (Ret a) s1 t1 /\ k a s1 = Run (Raise e) s2 t2 /\ t = t1 ++ t2.
Proof.
  intros Hn He H. apply bind_Raise_inv in H. destruct H as [H|H]; [|exact H].
  exfalso. apply (Hn s e); [rewrite H; reflexivity | exact He].
Qed.

(** A run that ends in an arithmetic exception raised it at line 292, straight
    after publishing "writing". *)
Lemma arithmetic_failure_inv fuel (a : Args) (s s' : State) e t :
  main w fuel a s = Run (Raise e) s' t -> arithmetic e ->
  exists st en ee s1 t1 t2,
    status_writing s1 = Run (Ret tt) s' t2 /\
    trigger_rate a st en ee s' = Run (Raise e) s' [] /\
    t = t1 ++ t2 /\
    ~ In ":DISK:SEGMented ALL" (commands t1).
Proof.
  intros H He. unfold main in H.
  assert (Hex : forall u : list event,
            Forall (fun ev => ev <> DpoWrite ":DISK:SEGMented ALL") u ->
            ~ In ":DISK:SEGMented ALL" (commands u)).
  { intros u Hu Hin. unfold commands in Hin. apply in_flat_map in Hin.
    destruct Hin as (ev & Hev & Hc). rewrite Forall_forall in Hu.
    destruct ev; simpl in Hc; try contradiction.
    destruct Hc as [->|[]]. apply (Hu (DpoWrite ":DISK:SEGMented ALL")).
    - apply list_elem_of_In. exact Hev.
    - reflexivity. }
  assert (Hbefore : forall s0,
            Forall (fun ev => ev <> DpoWrite ":DISK:SEGMented ALL")
              (trace ((do _ <- search_connect w ;;
                       do date <- configure_instrument w a ;;
                       do runNumber <- configure_run_number a ;;
                       do _ <- starting_run runNumber date ;;
                       do _ <- set_the_output_folder a runNumber date ;;
                       do _ <- configure w a ;;
                       do _ <- status_busy ;;
                       data_transferring w fuel a) s0))).
  { change (always (fun ev => ev <> DpoWrite ":DISK:SEGMented ALL")
              (do _ <- search_connect w ;;
               do date <- configure_instrument w a ;;
               do runNumber <- configure_run_number a ;;
               do _ <- starting_run runNumber date ;;
               do _ <- set_the_output_folder a runNumber date ;;
               do _ <- configure w a ;;
               do _ <- status_busy ;;
               data_transferring w fuel a)).
    unfold_script.
    repeat (first [apply always_poll | always_step]);
      intros; cbv beta; discriminate. }
  apply (returned_before _ _ arithmetic) in H; [|not_arithmetic|exact He].
  destruct H as ([] & s1 & t1 & u1 & E1 & H & ->).
  apply (returned_before _ _ arithmetic) in H; [|not_arithmetic|exact He].
  destruct H as (date & s2 & t2 & u2 & E2 & H & ->).
  apply (returned_before _ _ arithmetic) in H; [|not_arithmetic|exact He].
  destruct H as (rn & s3 & t3 & u3 & E3 & H & ->).
  apply (returned_before _ _ arithmetic) in H; [|not_arithmetic|exact He].
  destruct H as ([] & s4 & t4 & u4 & E4 & H & ->).
  apply (returned_before _ _ arithmetic) in H; [|not_arithmetic|exact He].
  destruct H as ([] & s5 & t5 & u5 & E5 & H & ->).
  apply (returned_before _ _ arithmetic) in H; [|not_arithmetic|exact He].
  destruct H as ([] & s6 & t6 & u6 & E6 & H & ->).
  apply (returned_before _ _ arithmetic) in H; [|not_arithmetic|exact He].
  destruct H as ([] & s7 & t7 & u7 & E7 & H & ->).
  apply (returned_before _ _ arithmetic) in H; [|not_arithmetic|exact He].
  destruct H as ([[st en] ee] & s8 & t8 & u8 & E8 & H & ->).
  unfold finish in H. cbn [fst snd] in H.
  apply (returned_before _ _ arithmetic) in H; [|not_arithmetic|exact He].
  destruct H as ([] & s9 & t9 & u9 & E9 & H & ->).
  apply bind_Raise_inv in H. destruct H as [H|H].
  - assert (Hs : s' = s9 /\ u9 = []).
    { unfold trigger_rate in H.
      destruct (Py.float_of_int (numEvents a)); [|injection H as _ <- <-; auto].
      destruct (Py.truediv _ _); [|injection H as _ <- <-; auto].
      destruct ee; discriminate H. }
    destruct Hs as [-> ->].
    exists st, en, ee, s8, (t1 ++ t2 ++ t3 ++ t4 ++ t5 ++ t6 ++ t7 ++ t8), t9.
    split; [exact E9|]. split; [exact H|]. split.
    { rewrite app_nil_r, <- !app_assoc. reflexivity. }
    apply Hex. specialize (Hbefore s).
    unfold bind in Hbefore.
    rewrite E1, E2, E3, E4, E5, E6, E7, E8 in Hbefore. exact Hbefore.
  - exfalso. destruct H as ([d q] & s10 & t10 & u10 & E10 & H & _).
    assert (N : never_raises arithmetic
                  (do _ <- save_waveforms w a rn ;;
                   do _ <- status_ready ;;
                   do _ <- emit DpoClose ;;
                   ret {| runNumber := rn; start := st; end_ := en;
                          end_early := ee; duration := fst (d, q);
                          trigRate := snd (d, q) |}))
      by not_arithmetic.
    apply (N s10 e); [rewrite H; reflexivity | exact He].
Qed.

(** Whenever line 292 raises, be it [ZeroDivisionError] on a zero duration
    or [OverflowError] on an event count beyond the floats, the run stops with
    the status file at "writing": closing that file was its last effect and
    nothing has been exported.  The overflow is the case of an event count
    that [float] cannot take. *)
Theorem rate_failure_leaves_writing (fuel : nat) (a : Args) (s : State) (e : Py.exn) :
  res (main w fuel a s) = Raise e -> arithmetic e ->
  contents (files (final (main w fuel a s))) run_log_path = "writing" +:+ Py.LF /\
  last (trace (main w fuel a s)) = Some (FileClose run_log_path) /\
  ~ In ":DISK:SEGMented ALL" (commands (trace (main w fuel a s))) /\
  (e = Py.OverflowError <-> Py.float_of_int (numEvents a) = None).
Proof.
  intros H He. destruct (main w fuel a s) as [r s' t] eqn:E. cbn [res] in H. subst r.
  cbn [final trace].
  apply arithmetic_failure_inv in E; [|exact He].
  destruct E as (st & en & ee & s1 & t1 & t2 & Ew & Er & -> & Hex).
  apply status_writing_inv in Ew. destruct Ew as (Ec & _ & ->).
  split; [unfold contents; rewrite Ec; reflexivity|].
  split.
  { match goal with
    | |- last (?l ++ [?e1; ?e2; ?e3; ?e4]) = _ =>
        change (last (l ++ ([e1; e2; e3] ++ [e4])) = Some e4)
    end.
    rewrite app_assoc. apply last_snoc. }
  split.
  - unfold commands in *. rewrite flat_map_app. cbn [flat_map command_of app].
    rewrite app_nil_r. exact Hex.
  - unfold trigger_rate in Er.
    destruct (Py.float_of_int (numEvents a)) as [n|].
    + destruct (Py.truediv n _); [destruct ee; discriminate Er|].
      injection Er as <-. split; discriminate.
    + injection Er as <-. split; reflexivity.
Qed.

End Failure.

Section SampleRate.

Context {RT : Runtime} (w : World).

(** Two runs whose arguments differ only in what lines 65-103 print go the
    same way from line 108 on. *)
Lemma commands_but_stdout (t : list event) : commands (but_stdout t) = commands t.
Proof.
  unfold commands, but_stdout.
  induction t as [|e t IH]; [reflexivity|].
  destruct e; cbn [flat_map silent_of command_of app]; rewrite ?IH; reflexivity.
Qed.

Lemma same_after_arguments {B} (a1 a2 : Args) (k : string -> M B) (s : State) :
  let r1 := (do _ <- search_connect w ;; do date <- configure_instrument w a1 ;; k date) s in
  let r2 := (do _ <- search_connect w ;; do date <- configure_instrument w a2 ;; k date) s in
  res r1 = res r2 /\ final r1 = final r2 /\
  but_stdout (trace r1) = but_stdout (trace r2).
Proof.
  destruct s as [fs nr nt nd].
  cbv [bind search_connect configure_instrument dpo_query dpo_write dpo_read
       py_print date_now emit].
  destruct (k _ _) as [r s' t]. cbn [res final trace].
  split; [reflexivity|]. split; [reflexivity|]. reflexivity.
Qed.

(** The sample rate, a required argument, is printed (lines 87 and 89) and
    nothing else: runs that differ in it alone end the same way, leave the
    same files and perform the same effects apart from what they print, so
    the instrument receives the same commands. *)
Theorem sample_rate_only_printed (fuel : nat) (a : Args) (r : float) (s : State) :
  res (main w fuel (with_sampleRate r a) s) = res (main w fuel a s) /\
  final (main w fuel (with_sampleRate r a) s) = final (main w fuel a s) /\
  but_stdout (trace (main w fuel (with_sampleRate r a) s)) =
    but_stdout (trace (main w fuel a s)) /\
  commands (trace (main w fuel (with_sampleRate r a) s)) =
    commands (trace (main w fuel a s)).
Proof.
  assert (H : res (main w fuel (with_sampleRate r a) s) = res (main w fuel a s) /\
              final (main w fuel (with_sampleRate r a) s) = final (main w fuel a s) /\
              but_stdout (trace (main w fuel (with_sampleRate r a) s)) =
                but_stdout (trace (main w fuel a s))).
  { unfold main. apply (same_after_arguments (with_sampleRate r a) a). }
  destruct H as (H1 & H2 & H3). repeat split; try assumption.
  rewrite <- (commands_but_stdout (trace (main w fuel a s))), <- H3.
  symmetry. apply commands_but_stdout.
Qed.

End SampleRate.

(** *** Reading back a run number that [str] wrote *)

Lemma append_cons c (s t : string) : String c s +:+ t = String c (s +:+ t).
Proof. reflexivity. Qed.

Lemma space_not_digit c :
  Py.isspace c = true ->
  Py.digit c = None /\ Ascii.eqb c "_" = false /\ Ascii.eqb c "-" = false
  /\ Ascii.eqb c "+" = false.
Proof.
  destruct c as [[] [] [] [] [] [] [] []]; intros H; try discriminate H;
    repeat split; reflexivity.
Qed.

Lemma digits_space acc ws : Py.all_space ws = true -> Py.digits acc ws = Some acc.
Proof.
  destruct ws as [|c ws]; [reflexivity|]. intros H.
  assert (Hc : Py.isspace c = true).
  { cbn [Py.all_space] in H. apply andb_true_iff in H. apply H. }
  destruct (space_not_digit c Hc) as (H1 & H2 & _).
  cbn [Py.digits]. rewrite H1, H2, H. reflexivity.
Qed.

Lemma lstrip_space ws s : Py.all_space ws = true -> Py.lstrip (ws +:+ s) = Py.lstrip s.
Proof.
  induction ws as [|c ws IH]; intros H; [reflexivity|].
  cbn [Py.all_space] in H. apply andb_true_iff in H. destruct H as [Hc H].
  rewrite append_cons. cbn [Py.lstrip]. rewrite Hc. apply IH, H.
Qed.

Ltac eval_char f :=
  match goal with
  | |- context [f ?c] => let v := eval cbv in (f c) in change (f c) with v
  end;
  cbv beta iota.

(** The digits of a decimal numeral, read after a positive accumulator. *)
Lemma digits_uint_pos d : forall p ws,
  Py.all_space ws = true ->
  Py.digits (Z.pos p) (NilEmpty.string_of_uint d +:+ ws)
  = Some (Z.pos (Pos.of_uint_acc d p)).
Proof.
  induction d as [|d IH|d IH|d IH|d IH|d IH|d IH|d IH|d IH|d IH|d IH]; intros p ws H;
    cbn [NilEmpty.string_of_uint Pos.of_uint_acc];
    [apply digits_space, H | ..];
    rewrite append_cons; cbn [Py.digits]; eval_char Py.digit;
    match goal with
    | |- Py.digits ?z _ = Some (Z.pos (Pos.of_uint_acc _ ?q)) =>
        replace z with (Z.pos q) by lia
    end;
    apply IH, H.
Qed.

(** The same after leading zeros only. *)
Lemma digits_uint_zero d : forall ws,
  Py.all_space ws = true ->
  Py.digits 0 (NilEmpty.string_of_uint d +:+ ws) = Some (Z.of_N (Pos.of_uint d)).
Proof.
  induction d as [|d IH|d IH|d IH|d IH|d IH|d IH|d IH|d IH|d IH|d IH]; intros ws H;
    cbn [NilEmpty.string_of_uint Pos.of_uint];
    [apply digits_space, H | ..];
    rewrite append_cons; cbn [Py.digits]; eval_char Py.digit;
    [apply IH, H | ..];
    cbn [Z.of_N];
    match goal with
    | |- Py.digits ?z _ = _ => let v := eval cbv in z in change z with v
    end;
    apply digits_uint_pos, H.
Qed.

Lemma unsigned_of_uint d ws :
  d <> Decimal.Nil -> Py.all_space ws = true ->
  Py.unsigned (NilEmpty.string_of_uint d +:+ ws) = Some (Z.of_uint d)
  /\ Py.lstrip (NilEmpty.string_of_uint d +:+ ws) = NilEmpty.string_of_uint d +:+ ws
  /\ exists c s, NilEmpty.string_of_uint d +:+ ws = String c s
       /\ Ascii.eqb c "-" = false /\ Ascii.eqb c "+" = false.
Proof.
  intros Hd H. unfold Z.of_uint.
  destruct d; [contradiction | ..];
    cbn [NilEmpty.string_of_uint]; rewrite append_cons;
    (split; [|split; [reflexivity | eexists _, _; repeat split; reflexivity]]);
    unfold Py.unsigned; eval_char Py.digit; cbn [Pos.of_uint Z.of_N];
    [apply digits_uint_zero, H | apply digits_uint_pos, H ..].
Qed.

(** The numeral of [str(n)], white space after it or not, is [n]. *)
Lemma numeral_str_int n ws :
  Py.all_space ws = true -> Py.numeral (Py.str_int n +:+ ws) = Some n.
Proof.
  intros H. rewrite <- (DecimalZ.of_to n) at 2. unfold Py.str_int.
  assert (Hnil : forall d, d <> Decimal.Nil ->
            NilZero.string_of_uint d = NilEmpty.string_of_uint d).
  { intros [] Hd; [contradiction | reflexivity ..]. }
  assert (Hpos : forall d, d <> Decimal.Nil ->
            Py.numeral (NilEmpty.string_of_uint d +:+ ws) = Some (Z.of_uint d)).
  { intros d Hd.
    destruct (unsigned_of_uint d ws Hd H) as (Hu & Hl & c & s & E & E1 & E2).
    unfold Py.numeral. rewrite Hl. rewrite E in Hu |- *. rewrite E1, E2. exact Hu. }
  destruct n as [|p|p]; cbn [Z.to_int NilZero.string_of_int Z.of_int].
  - apply (Hpos (Decimal.D0 Decimal.Nil)). discriminate.
  - rewrite Hnil by apply DecimalPos.Unsigned.to_uint_nonnil.
    apply Hpos, DecimalPos.Unsigned.to_uint_nonnil.
  - rewrite Hnil by apply DecimalPos.Unsigned.to_uint_nonnil.
    rewrite append_cons. unfold Py.numeral. cbn [Py.lstrip].
    change (Py.isspace "-") with false. cbv beta iota.
    change (Ascii.eqb "-" "-") with true. cbv beta iota.
    destruct (unsigned_of_uint (Pos.to_uint p) ws
                (DecimalPos.Unsigned.to_uint_nonnil p) H) as (-> & _).
    reflexivity.
Qed.

(** *** The number of digits of [str(n)] *)

Lemma ndigits_app (s t : string) :
  Py.ndigits (s +:+ t) = (Py.ndigits s + Py.ndigits t)%Z.
Proof.
  induction s as [|c s IH]; [reflexivity|].
  rewrite append_cons. cbn [Py.ndigits]. destruct (Py.digit c); lia.
Qed.

Lemma ndigits_space ws : Py.all_space ws = true -> Py.ndigits ws = 0%Z.
Proof.
  induction ws as [|c ws IH]; intros H; [reflexivity|].
  cbn [Py.all_space] in H. apply andb_true_iff in H. destruct H as [Hc H].
  destruct (space_not_digit c Hc) as (H1 & _).
  cbn [Py.ndigits]. rewrite H1. exact (IH H).
Qed.

Lemma ndigits_uint d :
  Py.ndigits (NilEmpty.string_of_uint d) = Z.of_nat (Decimal.nb_digits d).
Proof.
  induction d as [|d IH|d IH|d IH|d IH|d IH|d IH|d IH|d IH|d IH|d IH];
    [reflexivity | ..];
    cbn [NilEmpty.string_of_uint Py.ndigits Decimal.nb_digits];
    eval_char Py.digit; rewrite IH; lia.
Qed.

(** A numeral read after the accumulator [acc] is at least [acc] shifted by
    the number of its digits. *)
Lemma of_uint_acc_bound d : forall acc,
  (Z.pos acc * 10 ^ Z.of_nat (Decimal.nb_digits d) <= Z.pos (Pos.of_uint_acc d acc))%Z.
Proof.
  induction d as [|d IH|d IH|d IH|d IH|d IH|d IH|d IH|d IH|d IH|d IH]; intros acc;
    cbn [Pos.of_uint_acc Decimal.nb_digits];
    [change (10 ^ Z.of_nat 0)%Z with 1%Z; lia | ..];
    rewrite Nat2Z.inj_succ, Z.pow_succ_r by lia;
    (etransitivity; [|apply IH]);
    assert (0 < 10 ^ Z.of_nat (Decimal.nb_digits d))%Z by (apply Z.pow_pos_nonneg; lia);
    nia.
Qed.

(** [str] writes no leading zero. *)
Lemma to_uint_head p d : Pos.to_uint p <> Decimal.D0 d.
Proof.
  intros E.
  pose proof (DecimalPos.Unsigned.to_of (Pos.to_uint p)) as H.
  rewrite DecimalPos.Unsigned.of_to in H. cbn [N.to_uint] in H.
  rewrite E in H. rewrite DecimalFacts.unorm_D0 in H. unfold Decimal.unorm in H.
  destruct (Decimal.nzhead d) eqn:Hz;
    try (rewrite <- Hz in H; exact (DecimalFacts.nzhead_nonzero _ _ (eq_sym H))).
  apply (DecimalPos.Unsigned.to_uint_nonzero p). rewrite E. exact H.
Qed.

Lemma to_uint_bound p :
  (10 ^ (Z.of_nat (Decimal.nb_digits (Pos.to_uint p)) - 1) <= Z.pos p)%Z.
Proof.
  pose proof (DecimalPos.Unsigned.of_to p) as H.
  pose proof (to_uint_head p) as Hh.
  pose proof (DecimalPos.Unsigned.to_uint_nonnil p) as Hn.
  destruct (Pos.to_uint p) as [|d|d|d|d|d|d|d|d|d|d];
    [contradiction | exfalso; exact (Hh d eq_refl) | ..];
    cbn [Pos.of_uint] in H; injection H as <-;
    cbn [Decimal.nb_digits];
    replace (Z.of_nat (S (Decimal.nb_digits d)) - 1)%Z
      with (Z.of_nat (Decimal.nb_digits d)) by lia;
    (etransitivity; [|apply of_uint_acc_bound]);
    assert (0 < 10 ^ Z.of_nat (Decimal.nb_digits d))%Z by (apply Z.pow_pos_nonneg; lia);
    nia.
Qed.

(** An integer below [10 ^ k] in absolute value is written with at most [k]
    digits. *)
Lemma ndigits_str_int n k :
  (0 < k)%Z -> (Z.abs n < 10 ^ k)%Z -> (Py.ndigits (Py.str_int n) <= k)%Z.
Proof.
  intros Hk Hn.
  assert (Hnil : forall d, d <> Decimal.Nil ->
            NilZero.string_of_uint d = NilEmpty.string_of_uint d).
  { intros [] Hd; [contradiction | reflexivity ..]. }
  assert (Hp : forall p, (Z.pos p < 10 ^ k)%Z ->
            (Py.ndigits (NilEmpty.string_of_uint (Pos.to_uint p)) <= k)%Z).
  { intros p Hlt. rewrite ndigits_uint.
    pose proof (to_uint_bound p) as Hb.
    assert (Hlt' : (10 ^ (Z.of_nat (Decimal.nb_digits (Pos.to_uint p)) - 1)
                    < 10 ^ k)%Z) by lia.
    apply Z.pow_lt_mono_r_iff in Hlt'; lia. }
  unfold Py.str_int.
  destruct n as [|p|p]; cbn [Z.to_int NilZero.string_of_int Z.abs] in *.
  - change (Py.ndigits (NilZero.string_of_uint (Decimal.D0 Decimal.Nil))) with 1%Z. lia.
  - rewrite Hnil by apply DecimalPos.Unsigned.to_uint_nonnil. exact (Hp p Hn).
  - rewrite Hnil by apply DecimalPos.Unsigned.to_uint_nonnil.
    cbn [Py.ndigits]. eval_char Py.digit. exact (Hp p Hn).
Qed.

(** [int(lead + str(n) + trail) == n] for white space [lead] and [trail] and
    an integer [n] of at most [max_str_digits] digits. *)
Lemma int_str_int n lead trail :
  (Z.abs n < 10 ^ Py.max_str_digits)%Z ->
  Py.all_space lead = true -> Py.all_space trail = true ->
  Py.int (lead +:+ Py.str_int n +:+ trail) = Some n.
Proof.
  intros Hn Hl Ht. unfold Py.int.
  rewrite !ndigits_app, (ndigits_space _ Hl), (ndigits_space _ Ht).
  pose proof (ndigits_str_int n Py.max_str_digits eq_refl Hn) as Hd.
  destruct (Z.ltb_spec Py.max_str_digits (0 + (Py.ndigits (Py.str_int n) + 0))) as [Hlt|_];
    [lia|].
  unfold Py.numeral. rewrite (lstrip_space _ _ Hl).
  exact (numeral_str_int n trail Ht).
Qed.

(** A counter file that holds the decimal text of an integer [n] as [str]
    writes it, with any white space that [int] skips before and after it
    (the usual trailing newline included), makes the run number exactly [n],
    for every integer [n] of at most 4300 digits, the most that [int]
    converts: nothing is added to it, the file is opened, read once and
    closed, and its content is left as it was. *)
Theorem counter_round_trip (a : Args) (s : State) (n : Z) (lead trail : string) :
  runNumberParam a = (-1)%Z ->
  files s !! RunNumberFile = Some (Data (lead +:+ Py.str_int n +:+ trail)) ->
  (Z.abs n < 10 ^ Py.max_str_digits)%Z ->
  Py.all_space lead = true -> Py.all_space trail = true ->
  configure_run_number a s =
    Run (Ret n) s [FileOpen RunNumberFile ModeR; FileRead RunNumberFile;
                   FileClose RunNumberFile].
Proof.
  intros Ha Hf Hn Hl Ht. rewrite (counter_read a s _ Ha Hf).
  rewrite (int_str_int n lead trail Hn Hl Ht). reflexivity.
Qed.

(** *** The run number across runs *)

Lemma length_append (s t : string) :
  String.length (s +:+ t) = (String.length s + String.length t)%nat.
Proof.
  induction s as [|c s IH]; [reflexivity|].
  rewrite append_cons. cbn [String.length]. rewrite IH. reflexivity.
Qed.

Lemma append_inv_head (p s t : string) : p +:+ s = p +:+ t -> s = t.
Proof.
  induction p as [|c p IH]; [exact (fun H => H)|].
  rewrite !append_cons. intros [= H]. exact (IH H).
Qed.

Lemma append_inv_tail (t : string) : forall s1 s2, s1 +:+ t = s2 +:+ t -> s1 = s2.
Proof.
  induction s1 as [|c s1 IH]; intros [|c' s2] H.
  - reflexivity.
  - apply (f_equal String.length) in H. rewrite !length_append in H.
    cbn [String.length] in H. lia.
  - apply (f_equal String.length) in H. rewrite !length_append in H.
    cbn [String.length] in H. lia.
  - rewrite !append_cons in H. injection H as -> H. f_equal. exact (IH _ H).
Qed.

Lemma str_int_inj n1 n2 : Py.str_int n1 = Py.str_int n2 -> n1 = n2.
Proof.
  intros H.
  assert (E : Py.numeral (Py.str_int n1 +:+ EmptyString) = Some n1)
    by (apply numeral_str_int; reflexivity).
  rewrite H, numeral_str_int in E by reflexivity. congruence.
Qed.

(** Runs with different run numbers never export to the same waveform file:
    the save command of line 304 names a different file for each. *)
Theorem export_names_distinct (n1 n2 : Z) :
  n1 <> n2 -> save_command n1 <> save_command n2.
Proof.
  intros Hn H. apply Hn. unfold save_command in H.
  do 4 apply append_inv_head in H.
  apply append_inv_tail in H. exact (str_int_inj _ _ H).
Qed.

Section Rerun.

Context {RT : Runtime} (w : World).

(** The run number depends on the arguments and on the counter file only. *)
Lemma counter_decides (a : Args) (s1 s2 : State) :
  files s1 !! RunNumberFile = files s2 !! RunNumberFile ->
  res (configure_run_number a s1) = res (configure_run_number a s2).
Proof.
  intros H. destruct (Z.eq_dec (runNumberParam a) (-1)%Z) as [Ha|Ha].
  - destruct (files s2 !! RunNumberFile) as [[|text]|] eqn:Hf.
    + unfold configure_run_number. rewrite Ha. simpl.
      destruct s1 as [f1 ? ? ?], s2 as [f2 ? ? ?]. simpl in H, Hf.
      unfold bind, open_. rewrite H, Hf. reflexivity.
    + rewrite (counter_read a s2 text Ha Hf).
      rewrite (counter_read a s1 text Ha H).
      destruct (Py.int text); reflexivity.
    + unfold configure_run_number. rewrite Ha. simpl.
      destruct s1 as [f1 ? ? ?], s2 as [f2 ? ? ?]. simpl in H, Hf.
      unfold bind, open_. rewrite H, Hf. reflexivity.
  - rewrite !override_skips_counter by exact Ha. reflexivity.
Qed.

Lemma counter_kept_before (a : Args) (s s1 s2 : State) x d t1 t2 :
  search_connect w s = Run (Ret x) s1 t1 ->
  configure_instrument w a s1 = Run (Ret d) s2 t2 ->
  files s2 !! RunNumberFile = files s !! RunNumberFile.
Proof.
  intros E1 E2.
  assert (K1 : keeps RunNumberFile (search_connect w))
    by (unfold_script; repeat keeps_step).
  assert (K2 : keeps RunNumberFile (configure_instrument w a))
    by (unfold_script; repeat keeps_step).
  specialize (K1 s). specialize (K2 s1). rewrite E1 in K1. rewrite E2 in K2.
  cbn [final] in K1, K2. congruence.
Qed.

(** A run that returns normally read its run number in a state whose
    counter file is the one the run started with, and, with the save flag
    set, has sent the save command for that run number. *)
Lemma returned_run_number fuel (a : Args) (s s' : State) g t :
  main w fuel a s = Run (Ret g) s' t ->
  (exists s1,
     files s1 !! RunNumberFile = files s !! RunNumberFile /\
     res (configure_run_number a s1) = Ret (runNumber g)) /\
  (Py.truthy (savewaves a) = true -> In (save_command (runNumber g)) (commands t)).
Proof.
  intros H. unfold main in H.
  apply bind_Ret_inv in H. destruct H as (x & s1 & t1 & u1 & E1 & H & ->).
  apply bind_Ret_inv in H. destruct H as (d & s2 & t2 & u2 & E2 & H & ->).
  apply bind_Ret_inv in H. destruct H as (rn & s3 & t3 & u3 & E3 & H & ->).
  do 5 (inv_bind H). apply finish_inv in H.
  destruct H as (dd & q & sw & v1 & v3 & sx & v4 & -> & _ & _ & _ & Es & _ & ->).
  cbn [runNumber]. split.
  - exists s2. split; [exact (counter_kept_before a s s1 s2 x d t1 t2 E1 E2)|].
    rewrite E3. reflexivity.
  - intros Hs. destruct sw as [fs nr nt nd].
    rewrite save_waveforms_run, Hs in Es. injection Es as _ <-.
    unfold commands. apply in_flat_map. exists (DpoWrite (save_command rn)).
    split; [|left; reflexivity].
    rewrite !in_app_iff. cbn [In]. tauto.
Qed.

End Rerun.

(** Starting the script again with the same arguments, on the files the
    first run left, gives the second run the run number of the first: the
    counter file is read and never advanced.  With the save flag set both
    runs then send the same save command, so the second export goes to the
    waveform file of the first. *)
Theorem rerun_reuses_run_number {RT : Runtime} (w1 w2 : World) (fuel1 fuel2 : nat)
    (a : Args) (s : State) (g1 g2 : Globals) :
  res (main w1 fuel1 a s) = Ret g1 ->
  res (main w2 fuel2 a (final (main w1 fuel1 a s))) = Ret g2 ->
  runNumber g2 = runNumber g1 /\
  (Py.truthy (savewaves a) = true ->
   In (save_command (runNumber g1)) (commands (trace (main w1 fuel1 a s))) /\
   In (save_command (runNumber g1))
      (commands (trace (main w2 fuel2 a (final (main w1 fuel1 a s)))))).
Proof.
  intros H1 H2.
  pose proof (counter_kept w1 fuel1 a s) as K.
  destruct (main w1 fuel1 a s) as [r1 s1 t1] eqn:E1.
  cbn [res final trace] in *. subst r1.
  destruct (main w2 fuel2 a s1) as [r2 s2 t2] eqn:E2.
  cbn [res final trace] in *. subst r2.
  destruct (returned_run_number w1 fuel1 a s s1 g1 t1 E1) as ((sa & Fa & Ca) & X1).
  destruct (returned_run_number w2 fuel2 a s1 s2 g2 t2 E2) as ((sb & Fb & Cb) & X2).
  assert (E : runNumber g2 = runNumber g1).
  { assert (F : files sb !! RunNumberFile = files sa !! RunNumberFile) by congruence.
    pose proof (counter_decides a sb sa F) as D. congruence. }
  split; [exact E|]. intros Hs. split; [exact (X1 Hs)|].
  rewrite <- E. exact (X2 Hs).
Qed.

(** *** A file that may not be opened *)

Section Halts.

Context {RT : Runtime} (w : World).

Lemma halts_ret {A} (a : A) : halts (ret a).
Proof. intros s. discriminate. Qed.

Lemma halts_raise {A} e : halts (@raise A e).
Proof. intros s. discriminate. Qed.

Lemma halts_emit e : halts (emit e).
Proof. intros s. discriminate. Qed.

Lemma halts_bind {A B} (m : M A) (k : A -> M B) :
  halts m -> (forall a, halts (k a)) -> halts (bind m k).
Proof.
  intros Hm Hk s. unfold bind. specialize (Hm s).
  destruct (m s) as [[a|e|] s1 t1]; cbn [res] in *;
    [|discriminate|contradiction].
  specialize (Hk a s1). destruct (k a s1) as [r s2 t2]. exact Hk.
Qed.

Lemma halts_dpo_read : halts (dpo_read w).
Proof. intros [fs nr nt nd]. discriminate. Qed.

Lemma halts_date_now : halts (date_now w).
Proof. intros [fs nr nt nd]. discriminate. Qed.

Lemma halts_open path mode : halts (open_ path mode).
Proof.
  intros [fs nr nt nd]. unfold open_.
  destruct (fs !! path) as [[|text]|], mode; discriminate.
Qed.

Lemma halts_file_read path : halts (file_read path).
Proof. intros s. discriminate. Qed.

Lemma halts_file_write path data : halts (file_write path data).
Proof. intros [fs nr nt nd]. discriminate. Qed.

End Halts.

Ltac halts_step :=
  first
    [ apply halts_bind; [|intros ?]
    | apply halts_ret | apply halts_raise | apply halts_emit
    | apply halts_dpo_read | apply halts_date_now | apply halts_open
    | apply halts_file_read | apply halts_file_write
    | match goal with
      | |- halts (if ?b then _ else _) => destruct b
      | |- halts (match ?x with _ => _ end) => destruct x
      end ].

Section Blocked.

Context {RT : Runtime} (w : World) (path : string) (P : event -> Prop).

Lemma blocked_open mode : P (FileOpen path mode) -> blocked path P (open_ path mode).
Proof.
  intros H [fs nr nt nd] Hd. cbn [files] in Hd. unfold open_. rewrite Hd.
  cbn [res trace]. split; [eauto | repeat constructor; exact H].
Qed.

Lemma blocked_here {A B} (m : M A) (k : A -> M B) :
  blocked path P m -> blocked path P (bind m k).
Proof.
  intros Hm s Hd. destruct (Hm s Hd) as [[e He] Ht]. unfold bind.
  destruct (m s) as [r s1 t1]. cbn [res trace] in *. subst r.
  cbn [res trace]. eauto.
Qed.

Lemma blocked_later {A B} (m : M A) (k : A -> M B) :
  always P m -> keeps path m -> halts m -> (forall a, blocked path P (k a)) ->
  blocked path P (bind m k).
Proof.
  intros Ha Hk Hh Hb s Hd. specialize (Ha s). specialize (Hk s). specialize (Hh s).
  unfold bind. destruct (m s) as [[a|e|] s1 t1]; cbn [res trace final] in *.
  - rewrite <- Hk in Hd. destruct (Hb a s1 Hd) as [He Ht].
    destruct (k a s1) as [r s2 t2]. cbn [res trace] in *.
    split; [exact He | apply Forall_app; split; assumption].
  - eauto.
  - contradiction.
Qed.

End Blocked.

Lemma log_path_not_status : log_path <> run_log_path.
Proof. discriminate. Qed.

Section Denied.

Context {RT : Runtime} (w : World).

Ltac not_arming :=
  first
    [ discriminate
    | rewrite ?append_cons; discriminate ].

Ltac passes_phase side :=
  apply blocked_later;
  [ unfold_script; repeat always_step; side
  | unfold_script; repeat keeps_step; side
  | unfold_script; repeat halts_step
  | intros ? ].

(** When the logbook may not be opened (line 137), the run ends there with
    an exception, whatever the arguments and the instrument: the only
    command the instrument has received is the identification query, so a
    running acquisition is not even halted. *)
Theorem logbook_denied_before_setup (fuel : nat) (a : Args) (s : State) :
  files s !! log_path = Some Denied ->
  (exists e, res (main w fuel a s) = Raise e) /\
  (forall c, In c (commands (trace (main w fuel a s))) -> c = "*idn?").
Proof.
  intros Hd.
  assert (B : blocked log_path (fun e => forall c, In c (command_of e) -> c = "*idn?")
                (main w fuel a)).
  { unfold main.
    do 4 passes_phase ltac:(first
      [ intros c Hc; cbn [command_of In] in Hc; destruct Hc as [<-|[]]; reflexivity
      | intros c [] ]).
    apply blocked_here. unfold set_the_output_folder. apply blocked_here.
    apply blocked_open. intros c []. }
  destruct (B s Hd) as [He Ht]. split; [exact He|].
  intros c Hc. unfold commands in Hc. apply in_flat_map in Hc.
  destruct Hc as (e & Hin & Hc).
  exact (proj1 (List.Forall_forall _ _) Ht e Hin c Hc).
Qed.

(** When the status file may not be opened (line 247), the run ends there
    with an exception at the latest: the acquisition is never armed, so no
    data is taken that the status file could not announce. *)
Theorem status_denied_never_arms (fuel : nat) (a : Args) (s : State) :
  files s !! run_log_path = Some Denied ->
  (exists e, res (main w fuel a s) = Raise e) /\
  ~ In "*CLS;:SINGle" (commands (trace (main w fuel a s))).
Proof.
  intros Hd.
  assert (B : blocked run_log_path (fun e => ~ In "*CLS;:SINGle" (command_of e))
                (main w fuel a)).
  { unfold main.
    do 6 passes_phase ltac:(first
      [ exact log_path_not_status
      | cbn [command_of In]; intros [E|[]]; revert E; not_arming
      | intros [] ]).
    apply blocked_here. unfold status_busy. apply blocked_here.
    apply blocked_open. intros []. }
  destruct (B s Hd) as [He Ht]. split; [exact He|].
  intros Hc. unfold commands in Hc. apply in_flat_map in Hc.
  destruct Hc as (e & Hin & Hc).
  exact (proj1 (List.Forall_forall _ _) Ht e Hin Hc).
Qed.

End Denied.

(** ** The further properties at the fixtures *)

(** [deadline_exit_characterised] at a timeout of 0.05 s and an instrument
    that never completes. *)
Lemma deadline_exit_after_one_poll :
  res (poll Fixture.never_completes 5 0.05%float 1000%float (mkState ∅ 2 1 2))
    = Ret true /\
  PrimFloat.ltb 0%float 0.05%float = true.
Proof.
  assert (H : res (poll Fixture.never_completes 5 0.05%float 1000%float
                     (mkState ∅ 2 1 2)) = Ret true) by reflexivity.
  split; [exact H|].
  apply (deadline_exit_characterised Fixture.never_completes 5 0.05%float
           1000%float (mkState ∅ 2 1 2) H).
Defined.


(** [file_effects_confined] at the first scenario and a file next to the
    counter. *)
Lemma neighbour_file_untouched :
  let r := main (RT := Fixture.plain) Fixture.completes_after_3 10
             Fixture.defaults (initial Scenario.with_logbook) in
  files (final r) !! "F:\OSCDAta\notes.txt" =
  files (initial Scenario.with_logbook) !! "F:\OSCDAta\notes.txt".
Proof.
  cbv zeta.
  apply (file_effects_confined (RT := Fixture.plain) Fixture.completes_after_3 10
           Fixture.defaults (initial Scenario.with_logbook)
           "F:\OSCDAta\notes.txt");
    intros H; discriminate H.
Defined.

(** [rate_failure_leaves_writing] at a number of events beyond the range of
    a [float]: the conversion of line 292 overflows after a completed run. *)
Lemma overflowing_event_count :
  let a := with_numEvents (2 ^ 1024) Fixture.defaults in
  let r := main (RT := Fixture.plain) Fixture.completes_after_3 10 a
             (initial Fixture.counter_42) in
  res r = Raise Py.OverflowError /\
  contents (files (final r)) run_log_path = "writing" +:+ Py.LF.
Proof.
  cbv zeta.
  assert (H : res (main (RT := Fixture.plain) Fixture.completes_after_3 10
                     (with_numEvents (2 ^ 1024) Fixture.defaults)
                     (initial Fixture.counter_42)) = Raise Py.OverflowError)
    by (vm_compute; reflexivity).
  split; [exact H|].
  apply (rate_failure_leaves_writing (RT := Fixture.plain)
           Fixture.completes_after_3 10
           (with_numEvents (2 ^ 1024) Fixture.defaults)
           (initial Fixture.counter_42) Py.OverflowError H).
  right. reflexivity.
Defined.

(** [counter_round_trip] at a counter file holding [" -7"] and a newline. *)
Lemma counter_with_newline :
  res (configure_run_number Fixture.defaults
         (initial {[ RunNumberFile := Data (" -7" +:+ Py.LF) ]})) = Ret (-7)%Z.
Proof.
  exact (f_equal res
           (counter_round_trip Fixture.defaults
              (initial {[ RunNumberFile := Data (" -7" +:+ Py.LF) ]})
              (-7) " " Py.LF eq_refl eq_refl eq_refl eq_refl eq_refl)).
Defined.

(** [export_names_distinct] at two consecutive run numbers. *)
Lemma consecutive_runs_distinct_files : save_command 42 <> save_command 43.
Proof.
  apply (export_names_distinct 42 43). discriminate.
Defined.

(** [rerun_reuses_run_number] at the first scenario, run twice. *)
Lemma second_run_is_run_42_again :
  let r1 := main (RT := Fixture.plain) Fixture.completes_after_3 10
              Fixture.defaults (initial Fixture.counter_42) in
  let r2 := main (RT := Fixture.plain) Fixture.completes_after_3 10
              Fixture.defaults (final r1) in
  In (save_command 42) (commands (trace r1)) /\
  In (save_command 42) (commands (trace r2)).
Proof.
  cbv zeta.
  assert (H1 : res (main (RT := Fixture.plain) Fixture.completes_after_3 10
                      Fixture.defaults (initial Fixture.counter_42)) =
               Ret {| runNumber := 42; start := 1000%float; end_ := 1001%float;
                      end_early := false; duration := 1%float;
                      trigRate := 1000%float |})
    by (vm_compute; reflexivity).
  assert (H2 : res (main (RT := Fixture.plain) Fixture.completes_after_3 10
                      Fixture.defaults
                      (final (main (RT := Fixture.plain) Fixture.completes_after_3
                                10 Fixture.defaults (initial Fixture.counter_42)))) =
               Ret {| runNumber := 42; start := 1002%float; end_ := 1003%float;
                      end_early := false; duration := 1%float;
                      trigRate := 1000%float |})
    by (vm_compute; reflexivity).
  exact (proj2
    (rerun_reuses_run_number (RT := Fixture.plain) Fixture.completes_after_3
       Fixture.completes_after_3 10 10 Fixture.defaults
       (initial Fixture.counter_42) _ _ H1 H2) eq_refl).
Defined.

(** [logbook_denied_before_setup] at the first scenario with a logbook that
    may not be opened. *)
Lemma denied_logbook_stops_first_scenario :
  let r := main (RT := Fixture.plain) Fixture.completes_after_3 10
             Fixture.defaults
             (initial (<[ log_path := Denied ]> Fixture.counter_42)) in
  (exists e, res r = Raise e) /\
  (forall c, In c (commands (trace r)) -> c = "*idn?").
Proof.
  cbv zeta.
  apply (logbook_denied_before_setup (RT := Fixture.plain)
           Fixture.completes_after_3 10 Fixture.defaults
           (initial (<[ log_path := Denied ]> Fixture.counter_42))).
  reflexivity.
Defined.

(** [status_denied_never_arms] at the first scenario with a status file that
    may not be opened. *)
Lemma denied_status_stops_first_scenario :
  let r := main (RT := Fixture.plain) Fixture.completes_after_3 10
             Fixture.defaults
             (initial (<[ run_log_path := Denied ]> Fixture.counter_42)) in
  (exists e, res r = Raise e) /\ ~ In "*CLS;:SINGle" (commands (trace r)).
Proof.
  cbv zeta.
  apply (status_denied_never_arms (RT := Fixture.plain)
           Fixture.completes_after_3 10 Fixture.defaults
           (initial (<[ run_log_path := Denied ]> Fixture.counter_42))).
  reflexivity.
Defined.
